(** * alx_travel_app: listings models and serializers

    A shallow embedding of [listings/models.py] and [listings/serializers.py]:
    the derived properties of [Listing] and [Booking], and the validate /
    create hooks of [BookingSerializer] and [ReviewSerializer], together with
    the statements the specification makes about them; then the listing
    serializer and the seed command, with what their code shows. *)

From Stdlib Require Import ZArith QArith List String Bool Lia.
From Stdlib Require Import Permutation DecimalString Ascii SpecFloat.
Import ListNotations.
Local Open Scope string_scope.
Local Open Scope list_scope.
Local Open Scope Z_scope.

(** ** Python values *)

(** A [datetime.date] is its proleptic ordinal ([date.toordinal()]): dates
    compare as their ordinals and [(d1 - d2).days] is the difference. *)
Definition date := Z.

(** A [DecimalField(max_digits=10, decimal_places=2)] value, counted in
    hundredths of the currency unit.  Multiplying such a value by a number of
    days stays far below the 28 significant digits of Python's decimal
    context, so [Decimal * int] is exact. *)
Definition Decimal := Z.

(** Exceptions raised on the modelled paths.  A [ValidationError] carries the
    message of the source; [IntegrityError] names the violated constraint of
    the table. *)
Inductive exn : Type :=
| ValidationError (msg : string)
| TypeError
| KeyError (key : string)
| IntegrityError (constraint : string).

Inductive result (A : Type) : Type :=
| Ok (a : A)
| Raise (e : exn).
Arguments Ok {A} a.
Arguments Raise {A} e.

Definition bind {A B : Type} (m : result A) (k : A -> result B) : result B :=
  match m with
  | Ok a => k a
  | Raise e => Raise e
  end.

Declare Scope py_scope.
Delimit Scope py_scope with py.
Notation "x <- m ;; k" := (bind m (fun x => k))
  (at level 100, m at next level, right associativity) : py_scope.
Notation "'when' c 'raise' e ;; k" := (if c then Raise e else k)
  (at level 100, c at next level, e at next level, right associativity) : py_scope.
Local Open Scope py_scope.

(** [d[key]]: a missing key is a [KeyError]. *)
Definition getitem {A : Type} (key : string) (o : option A) : result A :=
  match o with
  | Some a => Ok a
  | None => Raise (KeyError key)
  end.

(** Truth value of [data.get(key)] for a model instance: only [None] is
    false. *)
Definition truthy {A : Type} (o : option A) : bool :=
  match o with
  | Some _ => true
  | None => false
  end.

(** Truth value of [data.get(key)] for an integer: [None] and [0] are
    false. *)
Definition truthy_int (o : option Z) : bool :=
  match o with
  | Some n => negb (n =? 0)
  | None => false
  end.

(** [sum(...)] over integers. *)
Definition sum (l : list Z) : Z := fold_right Z.add 0 l.

(** A text is the list of its characters, each a code point below 256.
    [is_space] is [str.isspace] on them. *)
Definition is_space (c : ascii) : bool :=
  let n := Z.of_N (N_of_ascii c) in
  ((9 <=? n) && (n <=? 13)) || ((28 <=? n) && (n <=? 32))
  || (n =? 133) || (n =? 160).

Fixpoint lstrip (s : string) : string :=
  match s with
  | EmptyString => EmptyString
  | String c s' => if is_space c then lstrip s' else s
  end.

Fixpoint rstrip (s : string) : string :=
  match s with
  | EmptyString => EmptyString
  | String c s' =>
      match rstrip s' with
      | EmptyString => if is_space c then EmptyString else String c EmptyString
      | t => String c t
      end
  end.

(** [str.strip()]. *)
Definition strip (s : string) : string := rstrip (lstrip s).

(** ['\x00' in s]. *)
Fixpoint has_nul (s : string) : bool :=
  match s with
  | EmptyString => false
  | String c s' => (Z.of_N (N_of_ascii c) =? 0) || has_nul s'
  end.

(** A Python [float] is a binary64 number. *)
Definition float : Type := spec_float.

(** [float(n)]; exact for an integer of at most 53 bits. *)
Definition float_of_int (n : Z) : float := binary_normalize 53 1024 n 0 false.

(** The rational a finite float stands for. *)
Definition float_value (f : float) : option Q :=
  match f with
  | S754_zero _ => Some 0%Q
  | S754_finite sign m e =>
      Some ((if sign then - inject_Z (Z.pos m) else inject_Z (Z.pos m))
            * (if 0 <=? e then inject_Z (2 ^ e) else / inject_Z (2 ^ (- e))))%Q
  | S754_infinity _ | S754_nan => None
  end.

(** What evaluating an arithmetic expression comes to. *)
Inductive outcome (A : Type) : Type :=
| Returns (a : A)
| ZeroDivisionError.
Arguments Returns {A} a.
Arguments ZeroDivisionError {A}.

(** [a / b] on two integers: true division.  For operands of at most 53
    bits, as sums of ratings and numbers of reviews are, it is the binary64
    quotient of the two converted operands. *)
Definition truediv (a b : Z) : outcome float :=
  if b =? 0 then ZeroDivisionError
  else Returns (SFdiv 53 1024 (float_of_int a) (float_of_int b)).

(** A number as a property returns it: an [int] or a [float]. *)
Inductive number : Type :=
| PyInt (n : Z)
| PyFloat (f : float).

(** ** models.py *)

Module User.
(** [django.contrib.auth.models.User], as far as the listings app reads
    it. *)
Record t : Type := mk {
  pk : Z;
  username : string;
  is_active : bool
}.
End User.

Module Review.
Record t : Type := mk {
  pk : Z;
  listing_id : Z;
  booking_id : Z;
  reviewer_id : Z;
  overall_rating : Z;
  is_verified : bool;
  comment : string;
  host_response : option string
}.

(** Default of the [is_verified] column. *)
Definition is_verified_default : bool := false.

(** [bool(self.host_response)]: [None] and the empty string are false. *)
Definition has_host_responded (self : t) : bool :=
  match host_response self with
  | Some s => negb (String.eqb s EmptyString)
  | None => false
  end.
End Review.

Module Listing.
Record t : Type := mk {
  pk : Z;
  title : string;
  bedrooms : Z;
  bathrooms : Z;
  price_per_night : Decimal;
  is_active : bool;
  host_id : Z
}.

(** [self.reviews.all()]: the rows of the review table whose [listing]
    foreign key is this listing. *)
Definition reviews (table : list Review.t) (self : t) : list Review.t :=
  filter (fun r => Review.listing_id r =? pk self) table.

(** [reviews.count()]. *)
Definition count (rs : list Review.t) : Z := Z.of_nat (List.length rs).

(** [reviews.exists()]. *)
Definition exists_ (rs : list Review.t) : bool :=
  match rs with
  | [] => false
  | _ :: _ => true
  end.

(** The [/] of the source is Python's true division of two integers; its
    value is taken here as the exact quotient, which the float of
    [average_rating_py] below rounds. *)
Definition average_rating (table : list Review.t) (self : t) : Q :=
  let reviews := reviews table self in
  if exists_ reviews
  then (inject_Z (sum (map Review.overall_rating reviews))
        / inject_Z (count reviews))%Q
  else 0%Q.

Definition review_count (table : list Review.t) (self : t) : Z :=
  count (reviews table self).

(** [average_rating] as Python evaluates it: the integer 0 when there is no
    review, else the true division of the sum by the count, a float. *)
Definition average_rating_py (table : list Review.t) (self : t) : outcome number :=
  let reviews := reviews table self in
  if exists_ reviews
  then match truediv (sum (map Review.overall_rating reviews)) (count reviews) with
       | Returns f => Returns (PyFloat f)
       | ZeroDivisionError => ZeroDivisionError
       end
  else Returns (PyInt 0).
End Listing.

Module Booking.
Inductive STATUS_CHOICES : Type :=
| PENDING
| CONFIRMED
| CANCELLED
| COMPLETED.

Definition status_eqb (a b : STATUS_CHOICES) : bool :=
  match a, b with
  | PENDING, PENDING | CONFIRMED, CONFIRMED
  | CANCELLED, CANCELLED | COMPLETED, COMPLETED => true
  | _, _ => false
  end.

Record t : Type := mk {
  pk : Z;
  listing_id : Z;
  guest_id : Z;
  check_in : date;
  check_out : date;
  num_guests : Z;
  price_per_night : Decimal;
  subtotal : Decimal;
  total_price : Decimal;
  status : STATUS_CHOICES
}.

(** Default of the [status] column. *)
Definition status_default : STATUS_CHOICES := PENDING.

Definition num_nights (self : t) : Z := check_out self - check_in self.

(** [today] is [timezone.now().date()]; the property reads the clock twice,
    both times on the same day. *)
Definition days_until_checkin (today : date) (self : t) : Z :=
  if check_in self >? today then check_in self - today else 0.

Definition is_active (today : date) (self : t) : bool :=
  status_eqb (status self) CONFIRMED
  && ((check_in self <=? today) && (today <=? check_out self)).

Definition can_cancel (today : date) (self : t) : bool :=
  if status_eqb (status self) CANCELLED then false
  else days_until_checkin today self >? 2.
End Booking.

(** ** The tables *)

Module Db.
(** One list of rows per table, in insertion order. *)
Record t : Type := mk {
  users : list User.t;
  listings : list Listing.t;
  bookings : list Booking.t;
  reviews : list Review.t
}.

(** The key an auto-increment column gives the next row of a table from
    which no row was deleted. *)
Definition next_pk (pks : list Z) : Z := 1 + fold_right Z.max 0 pks.

Definition add_booking (db : t) (b : Booking.t) : t :=
  mk (users db) (listings db) (bookings db ++ [b]) (reviews db).

Definition add_review (db : t) (r : Review.t) : t :=
  mk (users db) (listings db) (bookings db) (reviews db ++ [r]).
End Db.

(** ** serializers.py: BookingSerializer *)

Module BookingSerializer.
(** A booking submission as the fields of the serializer hand it on: the
    values parsed and within the limits of their columns, [listing_id] and
    [guest_id] resolved.  [status] is optional; the three price keys are
    whatever the caller sent under the read-only names. *)
Record submission : Type := mk_submission {
  sub_listing : Listing.t;
  sub_guest : User.t;
  sub_check_in : date;
  sub_check_out : date;
  sub_num_guests : Z;
  sub_status : option Booking.STATUS_CHOICES;
  sub_price_per_night : option Decimal;
  sub_subtotal : option Decimal;
  sub_total_price : option Decimal
}.

(** The [data] / [validated_data] dictionary: [None] is an absent key. *)
Record data : Type := mk {
  listing : option Listing.t;
  guest : option User.t;
  check_in : option date;
  check_out : option date;
  num_guests : option Z;
  status : option Booking.STATUS_CHOICES;
  price_per_night : option Decimal;
  subtotal : option Decimal;
  total_price : option Decimal
}.

(** [Meta.read_only_fields]: [price_per_night], [subtotal] and
    [total_price] of the payload never reach the validated data. *)
Definition to_internal_value (s : submission) : data :=
  mk (Some (sub_listing s)) (Some (sub_guest s))
     (Some (sub_check_in s)) (Some (sub_check_out s))
     (Some (sub_num_guests s)) (sub_status s)
     None None None.

(** Comparing with a missing date ([None]) is a [TypeError]. *)
Definition date_le (a b : option date) : result bool :=
  match a, b with
  | Some x, Some y => Ok (x <=? y)
  | _, _ => Raise TypeError
  end.

Definition date_lt (a b : option date) : result bool :=
  match a, b with
  | Some x, Some y => Ok (x <? y)
  | _, _ => Raise TypeError
  end.

Definition validate (today : date) (data : data) : result BookingSerializer.data :=
  let check_in := check_in data in
  let check_out := check_out data in
  c <- date_le check_out check_in ;;
  when c raise ValidationError "Check-out date must be after check-in date." ;;
  c <- date_lt check_in (Some today) ;;
  when c raise ValidationError "Check-in date cannot be in the past." ;;
  let listing := listing data in
  let num_guests := num_guests data in
  if truthy listing && truthy_int num_guests
  then
    match num_guests with
    | Some n =>
        when n <? 1 raise ValidationError "Number of guests must be at least 1." ;;
        Ok data
    | None => Ok data
    end
  else Ok data.

(** A required column left without a value. *)
Definition column {A : Type} (name : string) (o : option A) : result A :=
  match o with
  | Some a => Ok a
  | None => Raise (IntegrityError name)
  end.

(** [ModelSerializer.create], that is [Booking.objects.create] on the keys
    of the validated data: a row with a fresh key, the column default for
    an absent [status].  The width limits of the storage engine on a column
    are not part of the model. *)
Definition objects_create (db : Db.t) (vd : data) : result (Db.t * Booking.t) :=
  l <- column "listing_id" (listing vd) ;;
  g <- column "guest_id" (guest vd) ;;
  ci <- column "check_in" (check_in vd) ;;
  co <- column "check_out" (check_out vd) ;;
  n <- column "num_guests" (num_guests vd) ;;
  p <- column "price_per_night" (price_per_night vd) ;;
  s <- column "subtotal" (subtotal vd) ;;
  t <- column "total_price" (total_price vd) ;;
  let b := Booking.mk (Db.next_pk (map Booking.pk (Db.bookings db)))
                      (Listing.pk l) (User.pk g) ci co n p s t
                      (match status vd with
                       | Some st => st
                       | None => Booking.status_default
                       end) in
  Ok (Db.add_booking db b, b).

Definition create (db : Db.t) (validated_data : data) : result (Db.t * Booking.t) :=
  listing <- getitem "listing" (listing validated_data) ;;
  check_in <- getitem "check_in" (check_in validated_data) ;;
  check_out <- getitem "check_out" (check_out validated_data) ;;
  let num_nights := check_out - check_in in
  let price_per_night := Listing.price_per_night listing in
  let subtotal := price_per_night * num_nights in
  let total_price := subtotal in
  let validated_data :=
    mk (BookingSerializer.listing validated_data) (guest validated_data)
       (BookingSerializer.check_in validated_data)
       (BookingSerializer.check_out validated_data)
       (num_guests validated_data) (status validated_data)
       (Some price_per_night) (Some subtotal) (Some total_price) in
  objects_create db validated_data.

(** Modelled from the spec: the submission path, whose view is not among
    the sources.  A request goes through validation and then [create]
    ([is_valid()] followed by [save()]); nothing is written unless every
    step returns. *)
Definition submit (today : date) (db : Db.t) (s : submission) : Db.t * result Booking.t :=
  match (vd <- validate today (to_internal_value s) ;; create db vd) with
  | Ok (db', b) => (db', Ok b)
  | Raise e => (db, Raise e)
  end.
End BookingSerializer.

(** ** serializers.py: ReviewSerializer *)

Module ReviewSerializer.
(** A review submission as the fields of the serializer hand it on (see
    [fields] below): the related fields resolved, the rating passed by the
    validators of its column, the texts stripped.  [sub_is_verified] is
    whatever the caller sent under the read-only name [is_verified]. *)
Record submission : Type := mk_submission {
  sub_listing : Listing.t;
  sub_booking : Booking.t;
  sub_reviewer : User.t;
  sub_overall_rating : Z;
  sub_comment : string;
  sub_is_verified : option bool;
  sub_host_response : option string
}.

(** The [data] / [validated_data] dictionary: [None] is an absent key. *)
Record data : Type := mk {
  listing : option Listing.t;
  booking : option Booking.t;
  reviewer : option User.t;
  overall_rating : option Z;
  comment : option string;
  is_verified : option bool;
  host_response : option string
}.

Definition validate_overall_rating (value : Z) : result Z :=
  when (value <? 1) || (value >? 5)
    raise ValidationError "Rating must be between 1 and 5." ;;
  Ok value.

(** The rest of field validation, on what the fields hand on and before
    [validate]: the [validate_overall_rating] hook on the rating, and
    [Meta.read_only_fields] keeping [is_verified] out of the validated
    data. *)
Definition to_internal_value (s : submission) : result data :=
  value <- validate_overall_rating (sub_overall_rating s) ;;
  Ok (mk (Some (sub_listing s)) (Some (sub_booking s))
         (Some (sub_reviewer s)) (Some value) (Some (sub_comment s))
         None (sub_host_response s)).

(** [booking.guest != reviewer]: model instances compare by primary key,
    and [booking.guest] is the user row [guest_id] points to. *)
Definition guest_ne (booking : Booking.t) (reviewer : User.t) : bool :=
  negb (Booking.guest_id booking =? User.pk reviewer).

Definition validate (data : data) : result ReviewSerializer.data :=
  let booking := booking data in
  when match booking with
       | Some b => negb (Booking.status_eqb (Booking.status b) Booking.COMPLETED)
       | None => false
       end
    raise ValidationError "Reviews can only be created for completed bookings." ;;
  let reviewer := reviewer data in
  when match booking, reviewer with
       | Some b, Some r => guest_ne b r
       | _, _ => false
       end
    raise ValidationError "Only the guest who made the booking can review it." ;;
  Ok data.

Definition column {A : Type} (name : string) (o : option A) : result A :=
  match o with
  | Some a => Ok a
  | None => Raise (IntegrityError name)
  end.

(** [booking] is a [OneToOneField]: its column is unique. *)
Definition booking_taken (db : Db.t) (b : Booking.t) : bool :=
  existsb (fun r => Review.booking_id r =? Booking.pk b) (Db.reviews db).

(** [ModelSerializer.create], that is [Review.objects.create] on the keys
    of the validated data: a row with a fresh key, the column default for
    an absent [is_verified], refused when the booking already has a
    review. *)
Definition objects_create (db : Db.t) (vd : data) : result (Db.t * Review.t) :=
  l <- column "listing_id" (listing vd) ;;
  b <- column "booking_id" (booking vd) ;;
  u <- column "reviewer_id" (reviewer vd) ;;
  n <- column "overall_rating" (overall_rating vd) ;;
  c <- column "comment" (comment vd) ;;
  when booking_taken db b raise IntegrityError "unique booking_id" ;;
  let r := Review.mk (Db.next_pk (map Review.pk (Db.reviews db)))
                     (Listing.pk l) (Booking.pk b) (User.pk u) n
                     (match is_verified vd with
                      | Some v => v
                      | None => Review.is_verified_default
                      end)
                     c (host_response vd) in
  Ok (Db.add_review db r, r).

Definition create (db : Db.t) (validated_data : data) : result (Db.t * Review.t) :=
  let booking := booking validated_data in
  let validated_data :=
    if match booking with
       | Some b => Booking.status_eqb (Booking.status b) Booking.COMPLETED
       | None => false
       end
    then mk (listing validated_data) (ReviewSerializer.booking validated_data)
            (reviewer validated_data) (overall_rating validated_data)
            (comment validated_data) (Some true)
            (host_response validated_data)
    else validated_data in
  objects_create db validated_data.

(** Modelled from the spec: the submission path, whose view is not among
    the sources.  A request goes through validation and then [create]
    ([is_valid()] followed by [save()]); nothing is written unless every
    step returns. *)
Definition submit (db : Db.t) (s : submission) : Db.t * result Review.t :=
  match (d <- to_internal_value s ;; vd <- validate d ;; create db vd) with
  | Ok (db', r) => (db', Ok r)
  | Raise e => (db, Raise e)
  end.
(** A review as a creation request sends it, the related fields resolved:
    the rating an integer, the texts as typed. *)
Record payload : Type := mk_payload {
  raw_listing : Listing.t;
  raw_booking : Booking.t;
  raw_reviewer : User.t;
  raw_overall_rating : Z;
  raw_comment : string;
  raw_is_verified : option bool;
  raw_host_response : option string
}.

(** The field the framework builds for [overall_rating] from the validators
    of the column, [MinValueValidator(1)] and [MaxValueValidator(5)]: the
    messages of the validators the value fails, the upper limit first. *)
Definition overall_rating_field (value : Z) : list string :=
  (if value >? 5 then ["Ensure this value is less than or equal to 5."] else [])
  ++ (if value <? 1 then ["Ensure this value is greater than or equal to 1."]
      else []).

(** The field the framework builds for a text column: the text is
    stripped, a blank one is refused unless the column allows it, and one
    with a null character is refused. *)
Definition char_field (allow_blank : bool) (data : string) : string + string :=
  let value := strip data in
  if String.eqb value EmptyString
  then if allow_blank then inr EmptyString else inl "This field may not be blank."
  else if has_nul value then inl "Null characters are not allowed."
  else inr value.

(** The fields of the serializer run on a payload: the errors of all of
    them by field name, in the order of [Meta.fields], or, when there is
    none, the values they hand on.  [comment] must not be blank;
    [host_response] may be blank or null. *)
Definition fields (p : payload) : list (string * string) + submission :=
  let rating := overall_rating_field (raw_overall_rating p) in
  let comment := char_field false (raw_comment p) in
  let host_response :=
    match raw_host_response p with
    | Some text =>
        match char_field true text with
        | inl message => inl message
        | inr value => inr (Some value)
        end
    | None => inr None
    end in
  match rating, comment, host_response with
  | [], inr c, inr h =>
      inr (mk_submission (raw_listing p) (raw_booking p) (raw_reviewer p)
                         (raw_overall_rating p) c (raw_is_verified p) h)
  | _, _, _ =>
      inl (map (fun message => ("overall_rating", message)) rating
           ++ match comment with
              | inl message => [("comment", message)]
              | inr _ => []
              end
           ++ match host_response with
              | inl message => [("host_response", message)]
              | inr _ => []
              end)
  end.

(** How a creation request ends. *)
Inductive response : Type :=
| Stored (r : Review.t)
| FieldErrors (errors : list (string * string))
| Raised (e : exn).

(** Modelled from the spec: the whole submission path, whose view is not
    among the sources.  The fields run first; only when none of them
    reports an error do the hook, [validate] and [create] follow. *)
Definition post (db : Db.t) (p : payload) : Db.t * response :=
  match fields p with
  | inl errors => (db, FieldErrors errors)
  | inr s =>
      match submit db s with
      | (db', Ok r) => (db', Stored r)
      | (db', Raise e) => (db', Raised e)
      end
  end.
End ReviewSerializer.

(** ** Error kinds of the specification

    Each names the exception the source raises for it. *)

Definition DateOrderError : exn :=
  ValidationError "Check-out date must be after check-in date.".
Definition PastDateError : exn :=
  ValidationError "Check-in date cannot be in the past.".
Definition GuestCountError : exn :=
  ValidationError "Number of guests must be at least 1.".
Definition BookingNotCompletedError : exn :=
  ValidationError "Reviews can only be created for completed bookings.".
Definition WrongReviewerError : exn :=
  ValidationError "Only the guest who made the booking can review it.".
(** The rating is refused by its field, so this kind is an entry of the
    field errors: one of the two messages of [overall_rating]. *)
Definition RatingRangeError (errors : list (string * string)) : Prop :=
  In ("overall_rating", "Ensure this value is greater than or equal to 1.") errors
  \/ In ("overall_rating", "Ensure this value is less than or equal to 5.") errors.
Definition DuplicateReviewError : exn :=
  IntegrityError "unique booking_id".

(** ** The specification's reading of the rating aggregate *)

(** The arithmetic mean of a list of ratings, term by term over the
    rationals. *)
Definition arithmetic_mean (ratings : list Z) : Q :=
  (fold_right Qplus 0 (map inject_Z ratings)
   / inject_Z (Z.of_nat (List.length ratings)))%Q.

(** ** Sample rows *)

Module Sample.
Definition host : User.t := User.mk 1 "host1" true.
Definition guest : User.t := User.mk 2 "guest1" true.
Definition other_guest : User.t := User.mk 3 "guest2" true.

(** Priced at 100.00 a night. *)
Definition loft : Listing.t := Listing.mk 1 "Cozy Loft in Paris" 1 1 10000 true 1.
Definition villa : Listing.t := Listing.mk 2 "Luxury Villa in Rome" 3 2 45000 true 1.

Definition stay (check_in check_out : date) (status : Booking.STATUS_CHOICES) : Booking.t :=
  Booking.mk 1 (Listing.pk loft) (User.pk guest) check_in check_out 2
             10000 (10000 * (check_out - check_in)) (10000 * (check_out - check_in))
             status.

Definition rated (pk booking_id rating : Z) : Review.t :=
  Review.mk pk (Listing.pk loft) booking_id (User.pk guest) rating true "Great value for money." None.

Definition db : Db.t :=
  Db.mk [host; guest; other_guest] [loft; villa]
        [stay 10 13 Booking.COMPLETED] [].

(** A request for the loft, sent with prices of the caller's own. *)
Definition request (check_in check_out : date) (num_guests : Z) : BookingSerializer.submission :=
  BookingSerializer.mk_submission loft guest check_in check_out num_guests
                                  None (Some 1) (Some 1) (Some 1).

Definition review_of (listing : Listing.t) (booking : Booking.t) (reviewer : User.t)
           (rating : Z) : ReviewSerializer.submission :=
  ReviewSerializer.mk_submission listing booking reviewer rating
                                 "Amazing place! Highly recommend." (Some false) None.
End Sample.

(** More sample rows: a table whose booking 1 is still Pending. *)
Module Fixture.
Definition pending : Booking.t := Sample.stay 10 13 Booking.PENDING.

Definition db : Db.t :=
  Db.mk [Sample.host; Sample.guest; Sample.other_guest]
        [Sample.loft; Sample.villa] [pending] [].

Definition completed : Booking.t := Sample.stay 10 13 Booking.COMPLETED.

Definition review (listing : Listing.t) (booking : Booking.t) (reviewer : User.t)
           (rating : Z) (comment : string) (host_response : option string)
  : ReviewSerializer.payload :=
  ReviewSerializer.mk_payload listing booking reviewer rating comment
                              (Some false) host_response.

(** Three reviews of the loft, rated 5, 4 and 4. *)
Definition rated_5_4_4 : list Review.t :=
  [Sample.rated 1 1 5; Sample.rated 2 2 4; Sample.rated 3 3 4].
End Fixture.

(** ** serializers.py: ListingSerializer *)

Module ListingSerializer.
(** A listing submission as the fields of the serializer hand it on: the
    values parsed and within the limits of their columns, [host_id]
    resolved.  [is_active] is optional. *)
Record submission : Type := mk_submission {
  sub_title : string;
  sub_bedrooms : Z;
  sub_bathrooms : Z;
  sub_price_per_night : Decimal;
  sub_is_active : option bool;
  sub_host : User.t
}.

(** The [data] / [validated_data] dictionary: [None] is an absent key, as
    in the data of a partial update. *)
Record data : Type := mk {
  title : option string;
  bedrooms : option Z;
  bathrooms : option Z;
  price_per_night : option Decimal;
  is_active : option bool;
  host : option User.t
}.

(** [data.get(key, default)]. *)
Definition get (o : option Z) (default : Z) : Z :=
  match o with
  | Some v => v
  | None => default
  end.

Definition validate_price_per_night (value : Decimal) : result Decimal :=
  when value <=? 0 raise ValidationError "Price per night must be greater than 0." ;;
  Ok value.

(** Field validation: the [validate_price_per_night] hook runs on the price
    before [validate] sees the data. *)
Definition to_internal_value (s : submission) : result data :=
  value <- validate_price_per_night (sub_price_per_night s) ;;
  Ok (mk (Some (sub_title s)) (Some (sub_bedrooms s)) (Some (sub_bathrooms s))
         (Some value) (sub_is_active s) (Some (sub_host s))).

Definition validate (data : data) : result ListingSerializer.data :=
  when get (bedrooms data) 0 <? 1
    raise ValidationError "Listing must have at least 1 bedroom." ;;
  when get (bathrooms data) 0 <? 1
    raise ValidationError "Listing must have at least 1 bathroom." ;;
  Ok data.

Definition column {A : Type} (name : string) (o : option A) : result A :=
  match o with
  | Some a => Ok a
  | None => Raise (IntegrityError name)
  end.

(** Default of the [is_active] column. *)
Definition is_active_default : bool := true.

(** [ModelSerializer.create], which this serializer does not override:
    [Listing.objects.create] on the keys of the validated data. *)
Definition create (db : Db.t) (validated_data : data) : result (Db.t * Listing.t) :=
  t <- column "title" (title validated_data) ;;
  bd <- column "bedrooms" (bedrooms validated_data) ;;
  bt <- column "bathrooms" (bathrooms validated_data) ;;
  p <- column "price_per_night" (price_per_night validated_data) ;;
  h <- column "host_id" (host validated_data) ;;
  let l := Listing.mk (Db.next_pk (map Listing.pk (Db.listings db)))
                      t bd bt p
                      (match is_active validated_data with
                       | Some a => a
                       | None => is_active_default
                       end)
                      (User.pk h) in
  Ok (Db.mk (Db.users db) (Db.listings db ++ [l]) (Db.bookings db) (Db.reviews db), l).

(** Modelled from the spec: the submission path, whose view is not among
    the sources ([is_valid()] followed by [save()]). *)
Definition submit (db : Db.t) (s : submission) : Db.t * result Listing.t :=
  match (d <- to_internal_value s ;; vd <- validate d ;; create db vd) with
  | Ok (db', l) => (db', Ok l)
  | Raise e => (db, Raise e)
  end.
End ListingSerializer.

(** ** Conditions on the tables *)

(** Every rating of the table lies between [lo] and [hi]. *)
Definition ratings_within (lo hi : Z) (table : list Review.t) : Prop :=
  forall r, In r table -> lo <= Review.overall_rating r <= hi.

(** ** management/commands/seed.py *)

Module Seed.
(** The [random] module as one pass of a loop body sees it: what each call
    returns.  No pass calls one of them twice on the same arguments.
    [random_lt_half] is the outcome of [random.random() < 0.5]. *)
Record random : Type := mk_random {
  randint : Z -> Z -> Z;
  choice_string : list string -> string;
  choice_city : list (string * string) -> string * string;
  choice_user : list User.t -> User.t;
  choice_listing : list Listing.t -> Listing.t;
  choice_status : list Booking.STATUS_CHOICES -> Booking.STATUS_CHOICES;
  random_lt_half : bool
}.

(** What the [random] module promises: [randint(a, b)] lies in [a, b] and
    [choice(seq)] is an element of a non-empty [seq]. *)
Definition randint_ok (f : Z -> Z -> Z) : Prop :=
  forall a b, a <= b -> a <= f a b <= b.

Definition choice_ok {A : Type} (f : list A -> A) : Prop :=
  forall l, l <> [] -> In (f l) l.

Definition random_ok (r : random) : Prop :=
  randint_ok (randint r)
  /\ choice_ok (choice_string r)
  /\ choice_ok (choice_city r)
  /\ choice_ok (choice_user r)
  /\ choice_ok (choice_listing r)
  /\ choice_ok (choice_status r).

Definition cities : list (string * string) :=
  [("New York", "USA"); ("Paris", "France"); ("Tokyo", "Japan");
   ("London", "UK"); ("Barcelona", "Spain"); ("Dubai", "UAE");
   ("Sydney", "Australia"); ("Rome", "Italy"); ("Bangkok", "Thailand");
   ("Istanbul", "Turkey")].

Definition adjectives : list string :=
  ["Cozy"; "Luxury"; "Modern"; "Charming"; "Spacious"; "Beautiful"; "Elegant";
   "Stunning"].

Definition nouns : list string :=
  ["Studio"; "Apartment"; "Loft"; "Villa"; "House"; "Suite"; "Retreat"].

(** The body of [create_listings] runs [n] more times, [i] passes done;
    [rnd i] is the [random] module during pass [i].  The price drawn is a
    whole number of currency units.  Columns the listing row of this
    development does not carry are left out. *)
Fixpoint create_listings_from (rnd : nat -> random) (hosts : list User.t)
         (i n : nat) (db : Db.t) : result (Db.t * list Listing.t) :=
  match n with
  | O => Ok (db, [])
  | S n' =>
      let r := rnd i in
      let city := fst (choice_city r cities) in
      let title :=
        String.append (choice_string r adjectives)
          (String.append " "
             (String.append (choice_string r nouns) (String.append " in " city))) in
      p <- ListingSerializer.create db
             (ListingSerializer.mk (Some title)
                                   (Some (randint r 1 4))
                                   (Some (randint r 1 3))
                                   (Some (100 * randint r 50 500))
                                   (Some true)
                                   (Some (choice_user r hosts))) ;;
      q <- create_listings_from rnd hosts (S i) n' (fst p) ;;
      Ok (fst q, snd p :: snd q)
  end.

Definition create_listings (rnd : nat -> random) (hosts : list User.t) (db : Db.t)
  : result (Db.t * list Listing.t) :=
  create_listings_from rnd hosts 0 30 db.

(** A booking as the command holds it in memory: the row together with the
    listing and the guest it was created with. *)
Record booking_object : Type := mk_booking_object {
  row : Booking.t;
  listing : Listing.t;
  guest : User.t
}.

Definition statuses : list Booking.STATUS_CHOICES :=
  [Booking.COMPLETED; Booking.CONFIRMED; Booking.PENDING; Booking.CANCELLED].

Fixpoint create_bookings_from (rnd : nat -> random) (today : date)
         (listings : list Listing.t) (guests : list User.t)
         (i n : nat) (db : Db.t) : result (Db.t * list booking_object) :=
  match n with
  | O => Ok (db, [])
  | S n' =>
      let r := rnd i in
      let listing := choice_listing r listings in
      let guest := choice_user r guests in
      let status := choice_status r statuses in
      let dates :=
        if Booking.status_eqb status Booking.COMPLETED then
          let check_in := today - randint r 30 180 in
          (check_in, check_in + randint r 2 14)
        else if Booking.status_eqb status Booking.CONFIRMED then
          let check_in := today + randint r 5 60 in
          (check_in, check_in + randint r 2 14)
        else if Booking.status_eqb status Booking.PENDING then
          let check_in := today + randint r 10 30 in
          (check_in, check_in + randint r 2 7)
        else
          let check_in := today + randint r (-30) 30 in
          (check_in, check_in + randint r 2 7) in
      let check_in := fst dates in
      let check_out := snd dates in
      let num_nights := check_out - check_in in
      let price_per_night := Listing.price_per_night listing in
      let subtotal := price_per_night * num_nights in
      let total_price := subtotal in
      p <- BookingSerializer.objects_create db
             (BookingSerializer.mk (Some listing) (Some guest)
                                   (Some check_in) (Some check_out)
                                   (Some (randint r 1 4)) (Some status)
                                   (Some price_per_night) (Some subtotal)
                                   (Some total_price)) ;;
      q <- create_bookings_from rnd today listings guests (S i) n' (fst p) ;;
      Ok (fst q, mk_booking_object (snd p) listing guest :: snd q)
  end.

Definition create_bookings (rnd : nat -> random) (today : date)
           (listings : list Listing.t) (guests : list User.t) (db : Db.t)
  : result (Db.t * list booking_object) :=
  create_bookings_from rnd today listings guests 0 50 db.

Definition positive_comments : list string :=
  ["Amazing place! Highly recommend.";
   "The host was very welcoming and the place was spotless.";
   "Perfect location and great amenities. Will book again!";
   "Exceeded our expectations. Beautiful and comfortable.";
   "Great value for money. Loved our stay!"].

Definition neutral_comments : list string :=
  ["Nice place, but could use some updates.";
   "Decent stay. Met our basic needs.";
   "Good location, average amenities.";
   "It was okay. Nothing special but not bad either."].

Definition negative_comments : list string :=
  ["Not as described. Disappointed with cleanliness.";
   "Location was inconvenient and noisy.";
   "Poor communication with host. Would not recommend.";
   "Overpriced for what you get."].

Definition host_responses : list string :=
  ["Thank you for your wonderful review! We're glad you enjoyed your stay.";
   "We appreciate your feedback and hope to host you again soon!";
   "Thanks for staying with us! Your feedback means a lot.";
   "We're sorry to hear about your experience. We're working to improve.";
   "Thank you for your honest feedback. We'll address these issues."].

(** [review.save()] on a stored review: the row with its key is replaced. *)
Definition save (db : Db.t) (review : Review.t) : Db.t :=
  Db.mk (Db.users db) (Db.listings db) (Db.bookings db)
        (map (fun x => if Review.pk x =? Review.pk review then review else x)
             (Db.reviews db)).

(** The loop of [create_reviews] over [bookings_to_review], [i] passes
    done. *)
Fixpoint create_reviews_from (rnd : nat -> random) (i : nat)
         (bookings_to_review : list booking_object) (db : Db.t)
  : result (Db.t * list Review.t) :=
  match bookings_to_review with
  | [] => Ok (db, [])
  | booking :: rest =>
      let r := rnd i in
      let rating := randint r 1 5 in
      let comment :=
        if rating >=? 4 then choice_string r positive_comments
        else if rating =? 3 then choice_string r neutral_comments
        else choice_string r negative_comments in
      p <- ReviewSerializer.objects_create db
             (ReviewSerializer.mk (Some (listing booking)) (Some (row booking))
                                  (Some (guest booking)) (Some rating)
                                  (Some comment) (Some true) None) ;;
      let stored :=
        if random_lt_half r then
          let review :=
            Review.mk (Review.pk (snd p)) (Review.listing_id (snd p))
                      (Review.booking_id (snd p)) (Review.reviewer_id (snd p))
                      (Review.overall_rating (snd p)) (Review.is_verified (snd p))
                      (Review.comment (snd p))
                      (Some (choice_string r host_responses)) in
          (save (fst p) review, review)
        else p in
      q <- create_reviews_from rnd (S i) rest (fst stored) ;;
      Ok (fst q, snd stored :: snd q)
  end.

(** [sample] is [random.sample] together with the size the command asks
    for, 0.7 times the number of completed bookings cut to an integer. *)
Definition create_reviews (rnd : nat -> random)
           (sample : list booking_object -> list booking_object)
           (bookings : list booking_object) (db : Db.t)
  : result (Db.t * list Review.t) :=
  let completed_bookings :=
    filter (fun b => Booking.status_eqb (Booking.status (row b)) Booking.COMPLETED)
           bookings in
  let bookings_to_review := sample completed_bookings in
  create_reviews_from rnd 0 bookings_to_review db.

(** What [random.sample] promises: elements of the population, drawn
    without replacement. *)
Definition sample_ok (sample : list booking_object -> list booking_object) : Prop :=
  forall population,
    incl (sample population) population
    /\ (NoDup (map (fun b => Booking.pk (row b)) population) ->
        NoDup (map (fun b => Booking.pk (row b)) (sample population))).

(** [str(i)], the decimal digits of [i]. *)
Definition str (i : nat) : string := NilZero.string_of_uint (Nat.to_uint i).

(** [User.objects.get_or_create(username=username, defaults=...)]: the user
    of that name when there is one (names are unique in the user table),
    else a new, active one.  The third component is [created]. *)
Definition get_or_create (db : Db.t) (username : string) : Db.t * User.t * bool :=
  match find (fun u => String.eqb (User.username u) username) (Db.users db) with
  | Some user => (db, user, false)
  | None =>
      let user := User.mk (Db.next_pk (map User.pk (Db.users db))) username true in
      (Db.mk (Db.users db ++ [user]) (Db.listings db) (Db.bookings db)
             (Db.reviews db),
       user, true)
  end.

(** The loop of [create_users] from [i] on, [n] passes to go.  Setting the
    password of a created user changes no column carried here. *)
Fixpoint create_users_from (prefix : string) (i n : nat) (db : Db.t)
  : Db.t * list User.t :=
  match n with
  | O => (db, [])
  | S n' =>
      let username := String.append prefix (str i) in
      let got := get_or_create db username in
      let user := snd (fst got) in
      let rest := create_users_from prefix (S i) n' (fst (fst got)) in
      (fst rest, user :: snd rest)
  end.

Definition create_users (prefix : string) (count : nat) (db : Db.t)
  : Db.t * list User.t :=
  create_users_from prefix 1 count db.

(** [handle]: [clear] is the [--clear] option; each loop has its own draws.
    What the command prints is left out.  The keys of a cleared table start
    again at 1 here, where the database goes on counting. *)
Definition handle (clear : bool) (rnd_listings rnd_bookings rnd_reviews : nat -> random)
           (sample : list booking_object -> list booking_object)
           (today : date) (db : Db.t) : result Db.t :=
  let db := if clear then Db.mk (Db.users db) [] [] [] else db in
  let hosts := create_users "host" 5 db in
  let guests := create_users "guest" 10 (fst hosts) in
  listings <- create_listings rnd_listings (snd hosts) (fst guests) ;;
  bookings <- create_bookings rnd_bookings today (snd listings) (snd guests)
                              (fst listings) ;;
  reviews <- create_reviews rnd_reviews sample (snd bookings) (fst bookings) ;;
  Ok (fst reviews).

(** A generator for the examples: the least number, the first element. *)
Definition first_random : random :=
  mk_random (fun a _ => a)
            (fun l => hd EmptyString l)
            (fun l => hd (EmptyString, EmptyString) l)
            (fun l => hd (User.mk 0 EmptyString false) l)
            (fun l => hd (Listing.mk 0 EmptyString 0 0 0 false 0) l)
            (fun l => hd Booking.PENDING l)
            true.
End Seed.

(** ** What the rows of the seed command look like *)

(** A listing as [create_listings] draws it. *)
Definition seeded_listing (hosts : list User.t) (l : Listing.t) : Prop :=
  (exists units, 50 <= units <= 500 /\ Listing.price_per_night l = 100 * units)
  /\ 1 <= Listing.bedrooms l <= 4
  /\ 1 <= Listing.bathrooms l <= 3
  /\ Listing.is_active l = true
  /\ exists h, In h hosts /\ Listing.host_id l = User.pk h.

(** A booking as [create_bookings] draws it on the day [today]. *)
Definition seeded_booking (today : date) (listings : list Listing.t)
           (guests : list User.t) (b : Seed.booking_object) : Prop :=
  In (Seed.listing b) listings
  /\ In (Seed.guest b) guests
  /\ Booking.listing_id (Seed.row b) = Listing.pk (Seed.listing b)
  /\ Booking.guest_id (Seed.row b) = User.pk (Seed.guest b)
  /\ Booking.price_per_night (Seed.row b) = Listing.price_per_night (Seed.listing b)
  /\ Booking.subtotal (Seed.row b)
     = Booking.price_per_night (Seed.row b) * Booking.num_nights (Seed.row b)
  /\ Booking.total_price (Seed.row b) = Booking.subtotal (Seed.row b)
  /\ 1 <= Booking.num_guests (Seed.row b) <= 4
  /\ match Booking.status (Seed.row b) with
     | Booking.COMPLETED =>
         30 <= today - Booking.check_in (Seed.row b) <= 180
         /\ 2 <= Booking.num_nights (Seed.row b) <= 14
     | Booking.CONFIRMED =>
         5 <= Booking.check_in (Seed.row b) - today <= 60
         /\ 2 <= Booking.num_nights (Seed.row b) <= 14
     | Booking.PENDING =>
         10 <= Booking.check_in (Seed.row b) - today <= 30
         /\ 2 <= Booking.num_nights (Seed.row b) <= 7
     | Booking.CANCELLED =>
         -30 <= Booking.check_in (Seed.row b) - today <= 30
         /\ 2 <= Booking.num_nights (Seed.row b) <= 7
     end.

(** The review [create_reviews] stores for the booking [b]. *)
Definition seeded_review (b : Seed.booking_object) (r : Review.t) : Prop :=
  Review.booking_id r = Booking.pk (Seed.row b)
  /\ Review.listing_id r = Listing.pk (Seed.listing b)
  /\ Review.reviewer_id r = User.pk (Seed.guest b)
  /\ 1 <= Review.overall_rating r <= 5
  /\ Review.is_verified r = true
  /\ In (Review.comment r)
        (if Review.overall_rating r >=? 4 then Seed.positive_comments
         else if Review.overall_rating r =? 3 then Seed.neutral_comments
         else Seed.negative_comments)
  /\ (forall text, Review.host_response r = Some text -> In text Seed.host_responses).

(** In a booking held in memory the row refers to the listing and the
    guest held with it. *)
Definition coherent (b : Seed.booking_object) : Prop :=
  Booking.listing_id (Seed.row b) = Listing.pk (Seed.listing b)
  /\ Booking.guest_id (Seed.row b) = User.pk (Seed.guest b).

(** * Properties *)

(** ** Booking: derived properties *)

Lemma status_eqb_eq (a b : Booking.STATUS_CHOICES) :
  Booking.status_eqb a b = true <-> a = b.
Proof. destruct a, b; simpl; split; congruence. Qed.

Lemma status_eqb_neq (a b : Booking.STATUS_CHOICES) :
  Booking.status_eqb a b = false <-> a <> b.
Proof. destruct a, b; simpl; split; congruence. Qed.

Lemma days_until_checkin_max (today : date) (b : Booking.t) :
  Booking.days_until_checkin today b = Z.max 0 (Booking.check_in b - today).
Proof.
  unfold Booking.days_until_checkin.
  destruct (Z.gtb_spec (Booking.check_in b) today); lia.
Qed.

(** C7: [days_until_checkin] is [max(0, check_in - today)]: the positive day
    difference for a check-in in the future, and 0, never a negative number,
    for a check-in today or in the past. *)
Theorem C7_days_until_checkin (today : date) (b : Booking.t) :
  Booking.days_until_checkin today b = Z.max 0 (Booking.check_in b - today)
  /\ (today < Booking.check_in b ->
      Booking.days_until_checkin today b = Booking.check_in b - today
      /\ 0 < Booking.days_until_checkin today b)
  /\ (Booking.check_in b <= today -> Booking.days_until_checkin today b = 0)
  /\ 0 <= Booking.days_until_checkin today b.
Proof.
  rewrite days_until_checkin_max. repeat split; lia.
Qed.

Lemma C7_days_until_checkin_witness :
  (7 < Booking.check_in (Sample.stay 10 13 Booking.CONFIRMED)
   /\ Booking.days_until_checkin 7 (Sample.stay 10 13 Booking.CONFIRMED) = 3)
  /\ (Booking.check_in (Sample.stay 10 13 Booking.CONFIRMED) <= 12
      /\ Booking.days_until_checkin 12 (Sample.stay 10 13 Booking.CONFIRMED) = 0).
Proof.
  split; split.
  - simpl; lia.
  - apply (proj1 (proj2 (C7_days_until_checkin 7 (Sample.stay 10 13 Booking.CONFIRMED)))).
    simpl; lia.
  - simpl; lia.
  - apply (proj1 (proj2 (proj2 (C7_days_until_checkin 12 (Sample.stay 10 13 Booking.CONFIRMED))))).
    simpl; lia.
Defined.

(** C6: [is_active] holds exactly when the status is Confirmed and today
    lies in [check_in, check_out], both ends included; under any other status
    it is false whatever the dates. *)
Theorem C6_is_active (today : date) (b : Booking.t) :
  (Booking.is_active today b = true <->
   Booking.status b = Booking.CONFIRMED
   /\ Booking.check_in b <= today <= Booking.check_out b)
  /\ (Booking.status b <> Booking.CONFIRMED -> Booking.is_active today b = false).
Proof.
  unfold Booking.is_active. split.
  - rewrite !andb_true_iff, status_eqb_eq, !Z.leb_le. tauto.
  - intros H. apply status_eqb_neq in H. now rewrite H.
Qed.

Lemma C6_is_active_witness :
  (Booking.status (Sample.stay 10 13 Booking.CONFIRMED) = Booking.CONFIRMED
   /\ Booking.check_in (Sample.stay 10 13 Booking.CONFIRMED) <= 13
      <= Booking.check_out (Sample.stay 10 13 Booking.CONFIRMED))
  /\ Booking.is_active 13 (Sample.stay 10 13 Booking.CONFIRMED) = true
  /\ Booking.status (Sample.stay 10 13 Booking.PENDING) <> Booking.CONFIRMED
  /\ Booking.is_active 13 (Sample.stay 10 13 Booking.PENDING) = false.
Proof.
  assert (H : Booking.status (Sample.stay 10 13 Booking.CONFIRMED) = Booking.CONFIRMED
              /\ Booking.check_in (Sample.stay 10 13 Booking.CONFIRMED) <= 13
                 <= Booking.check_out (Sample.stay 10 13 Booking.CONFIRMED))
    by (simpl; split; [reflexivity | lia]).
  assert (N : Booking.status (Sample.stay 10 13 Booking.PENDING) <> Booking.CONFIRMED)
    by (simpl; discriminate).
  split; [exact H | split; [| split; [exact N |]]].
  - exact (proj2 (proj1 (C6_is_active 13 (Sample.stay 10 13 Booking.CONFIRMED))) H).
  - exact (proj2 (C6_is_active 13 (Sample.stay 10 13 Booking.PENDING)) N).
Defined.

(** C5: [can_cancel] holds exactly when the status is not Cancelled and
    [days_until_checkin] exceeds 2; a Confirmed booking checking in 2 days
    from today cannot be cancelled, one checking in 3 days from today can. *)
Theorem C5_can_cancel (today : date) (b : Booking.t) :
  (Booking.can_cancel today b = true <->
   Booking.status b <> Booking.CANCELLED
   /\ Booking.days_until_checkin today b > 2)
  /\ (Booking.status b = Booking.CONFIRMED -> Booking.check_in b = today + 2 ->
      Booking.can_cancel today b = false)
  /\ (Booking.status b = Booking.CONFIRMED -> Booking.check_in b = today + 3 ->
      Booking.can_cancel today b = true).
Proof.
  unfold Booking.can_cancel. split; [split | split].
  - destruct (Booking.status_eqb _ _) eqn:E; [discriminate |].
    intros H. split; [now apply status_eqb_neq |].
    apply Z.gtb_lt in H. lia.
  - intros [H1 H2]. apply status_eqb_neq in H1. rewrite H1.
    apply Z.gtb_lt. lia.
  - intros Hs Hd. rewrite Hs. simpl.
    rewrite days_until_checkin_max, Hd.
    destruct (Z.gtb_spec (Z.max 0 (today + 2 - today)) 2); [lia | reflexivity].
  - intros Hs Hd. rewrite Hs. simpl.
    rewrite days_until_checkin_max, Hd.
    apply Z.gtb_lt. lia.
Qed.

Lemma C5_can_cancel_witness :
  (Booking.status (Sample.stay 10 13 Booking.CONFIRMED) = Booking.CONFIRMED
   /\ Booking.check_in (Sample.stay 10 13 Booking.CONFIRMED) = 8 + 2
   /\ Booking.can_cancel 8 (Sample.stay 10 13 Booking.CONFIRMED) = false)
  /\ (Booking.check_in (Sample.stay 10 13 Booking.CONFIRMED) = 7 + 3
      /\ Booking.can_cancel 7 (Sample.stay 10 13 Booking.CONFIRMED) = true)
  /\ (Booking.status (Sample.stay 10 13 Booking.PENDING) <> Booking.CANCELLED
      /\ Booking.days_until_checkin 7 (Sample.stay 10 13 Booking.PENDING) > 2
      /\ Booking.can_cancel 7 (Sample.stay 10 13 Booking.PENDING) = true).
Proof.
  split; [| split].
  - split; [reflexivity | split; [reflexivity |]].
    apply (proj1 (proj2 (C5_can_cancel 8 (Sample.stay 10 13 Booking.CONFIRMED))));
      reflexivity.
  - split; [reflexivity |].
    apply (proj2 (proj2 (C5_can_cancel 7 (Sample.stay 10 13 Booking.CONFIRMED))));
      reflexivity.
  - assert (N : Booking.status (Sample.stay 10 13 Booking.PENDING) <> Booking.CANCELLED)
      by (simpl; discriminate).
    assert (D : Booking.days_until_checkin 7 (Sample.stay 10 13 Booking.PENDING) > 2)
      by (vm_compute; reflexivity).
    split; [exact N | split; [exact D |]].
    exact (proj2 (proj1 (C5_can_cancel 7 (Sample.stay 10 13 Booking.PENDING)))
                 (conj N D)).
Defined.

(** ** BookingSerializer: validation and locked prices *)

Import BookingSerializer (sub_listing, sub_guest, sub_check_in, sub_check_out,
                          sub_num_guests, sub_status).

(** The three checks of [validate] on a submission, in the order the source
    runs them. *)
Lemma booking_validate_submission (today : date) (s : BookingSerializer.submission) :
  BookingSerializer.validate today (BookingSerializer.to_internal_value s) =
  if sub_check_out s <=? sub_check_in s then Raise DateOrderError
  else if sub_check_in s <? today then Raise PastDateError
  else if negb (sub_num_guests s =? 0) && (sub_num_guests s <? 1)
       then Raise GuestCountError
       else Ok (BookingSerializer.to_internal_value s).
Proof.
  unfold BookingSerializer.validate; simpl.
  destruct (sub_check_out s <=? sub_check_in s); [reflexivity |].
  destruct (sub_check_in s <? today); [reflexivity |].
  destruct (sub_num_guests s =? 0); simpl; [reflexivity |].
  destruct (sub_num_guests s <? 1); reflexivity.
Qed.

(** [create] on the validated data of a submission always inserts, with the
    prices computed from the listing of the submission. *)
Lemma booking_create_submission (db : Db.t) (s : BookingSerializer.submission) :
  BookingSerializer.create db (BookingSerializer.to_internal_value s) =
  let p := Listing.price_per_night (sub_listing s) in
  let n := sub_check_out s - sub_check_in s in
  let b := Booking.mk (Db.next_pk (map Booking.pk (Db.bookings db)))
                      (Listing.pk (sub_listing s)) (User.pk (sub_guest s))
                      (sub_check_in s) (sub_check_out s) (sub_num_guests s)
                      p (p * n) (p * n)
                      (match sub_status s with
                       | Some st => st
                       | None => Booking.status_default
                       end) in
  Ok (Db.add_booking db b, b).
Proof. reflexivity. Qed.

Lemma booking_submit_rejected (today : date) (db : Db.t)
      (s : BookingSerializer.submission) (e : exn) :
  BookingSerializer.validate today (BookingSerializer.to_internal_value s) = Raise e ->
  BookingSerializer.submit today db s = (db, Raise e).
Proof.
  intros H. unfold BookingSerializer.submit. now rewrite H.
Qed.

Lemma booking_submit_accepted (today : date) (db : Db.t)
      (s : BookingSerializer.submission) :
  BookingSerializer.validate today (BookingSerializer.to_internal_value s)
  = Ok (BookingSerializer.to_internal_value s) ->
  exists b,
    BookingSerializer.submit today db s = (Db.add_booking db b, Ok b)
    /\ Booking.check_in b = sub_check_in s
    /\ Booking.check_out b = sub_check_out s
    /\ Booking.num_guests b = sub_num_guests s
    /\ Booking.price_per_night b = Listing.price_per_night (sub_listing s)
    /\ Booking.subtotal b
       = Listing.price_per_night (sub_listing s) * (sub_check_out s - sub_check_in s)
    /\ Booking.total_price b = Booking.subtotal b.
Proof.
  intros H. unfold BookingSerializer.submit. rewrite H.
  unfold bind. rewrite booking_create_submission. cbv zeta.
  eexists. split; [reflexivity |]. simpl. repeat split; reflexivity.
Qed.

(** Whatever comes back from [validate] on a submission is either an error
    or the validated data unchanged. *)
Lemma booking_validate_returns_data (today : date) (s : BookingSerializer.submission)
      (vd : BookingSerializer.data) :
  BookingSerializer.validate today (BookingSerializer.to_internal_value s) = Ok vd ->
  vd = BookingSerializer.to_internal_value s
  /\ sub_check_in s < sub_check_out s /\ today <= sub_check_in s.
Proof.
  rewrite booking_validate_submission.
  destruct (Z.leb_spec (sub_check_out s) (sub_check_in s)); [discriminate |].
  destruct (Z.ltb_spec (sub_check_in s) today); [discriminate |].
  destruct (negb _ && _); [discriminate |].
  intros E. injection E as <-. repeat split; lia.
Qed.

(** C1: a booking that is accepted and stored carries the listing's price per
    night as read at creation, [num_nights] is the day difference of its
    dates, [subtotal] is the price per night times [num_nights], and
    [total_price] is the subtotal, whatever prices the caller sent. *)
Theorem C1_locked_prices (today : date) (db db' : Db.t)
        (s : BookingSerializer.submission) (b : Booking.t) :
  BookingSerializer.submit today db s = (db', Ok b) ->
  In b (Db.bookings db')
  /\ Booking.price_per_night b = Listing.price_per_night (sub_listing s)
  /\ Booking.num_nights b = sub_check_out s - sub_check_in s
  /\ 0 < Booking.num_nights b
  /\ Booking.subtotal b = Booking.price_per_night b * Booking.num_nights b
  /\ Booking.total_price b = Booking.subtotal b.
Proof.
  intros H.
  destruct (BookingSerializer.validate today (BookingSerializer.to_internal_value s))
    as [vd | e] eqn:V.
  - destruct (booking_validate_returns_data _ _ _ V) as (-> & Hd & _).
    destruct (booking_submit_accepted today db s V)
      as (b' & E & Hci & Hco & _ & Hp & Hs & Ht).
    rewrite E in H. injection H as <- <-.
    unfold Booking.num_nights. rewrite Hci, Hco, Hp, Ht, Hs.
    repeat split; try lia.
    simpl. apply in_or_app. right. now left.
  - rewrite (booking_submit_rejected today db s e V) in H. discriminate.
Qed.

Lemma C1_locked_prices_witness :
  BookingSerializer.submit 5 Sample.db (Sample.request 10 13 2)
  = (Db.add_booking Sample.db
       (Booking.mk 2 1 2 10 13 2 10000 30000 30000 Booking.PENDING),
     Ok (Booking.mk 2 1 2 10 13 2 10000 30000 30000 Booking.PENDING))
  /\ Booking.subtotal (Booking.mk 2 1 2 10 13 2 10000 30000 30000 Booking.PENDING)
     = Booking.price_per_night (Booking.mk 2 1 2 10 13 2 10000 30000 30000 Booking.PENDING)
       * Booking.num_nights (Booking.mk 2 1 2 10 13 2 10000 30000 30000 Booking.PENDING)
  /\ Booking.total_price (Booking.mk 2 1 2 10 13 2 10000 30000 30000 Booking.PENDING)
     = Booking.subtotal (Booking.mk 2 1 2 10 13 2 10000 30000 30000 Booking.PENDING).
Proof.
  assert (H : BookingSerializer.submit 5 Sample.db (Sample.request 10 13 2)
              = (Db.add_booking Sample.db
                   (Booking.mk 2 1 2 10 13 2 10000 30000 30000 Booking.PENDING),
                 Ok (Booking.mk 2 1 2 10 13 2 10000 30000 30000 Booking.PENDING)))
    by reflexivity.
  split; [exact H |].
  exact (proj2 (proj2 (proj2 (proj2 (C1_locked_prices 5 _ _ _ _ H))))).
Defined.

(** C2: the date checks of a submission run in order and stop at the first
    failure: a check-out on or before the check-in is a DateOrderError
    (check-in and check-out both today included), otherwise a check-in
    before today is a PastDateError; in both cases the tables are left as
    they were. *)
Theorem C2_date_checks (today : date) (db : Db.t) (s : BookingSerializer.submission) :
  (sub_check_out s <= sub_check_in s ->
   BookingSerializer.validate today (BookingSerializer.to_internal_value s)
   = Raise DateOrderError
   /\ BookingSerializer.submit today db s = (db, Raise DateOrderError))
  /\ (sub_check_in s = today -> sub_check_out s = today ->
      BookingSerializer.submit today db s = (db, Raise DateOrderError))
  /\ (sub_check_in s < sub_check_out s -> sub_check_in s < today ->
      BookingSerializer.validate today (BookingSerializer.to_internal_value s)
      = Raise PastDateError
      /\ BookingSerializer.submit today db s = (db, Raise PastDateError))
  /\ DateOrderError <> PastDateError.
Proof.
  assert (O : sub_check_out s <= sub_check_in s ->
              BookingSerializer.validate today (BookingSerializer.to_internal_value s)
              = Raise DateOrderError).
  { intros H. rewrite booking_validate_submission.
    destruct (Z.leb_spec (sub_check_out s) (sub_check_in s)); [reflexivity | lia]. }
  split; [| split; [| split]].
  - intros H. split; [now apply O |].
    apply booking_submit_rejected. now apply O.
  - intros H1 H2. apply booking_submit_rejected. apply O. lia.
  - intros H1 H2.
    assert (P : BookingSerializer.validate today (BookingSerializer.to_internal_value s)
                = Raise PastDateError).
    { rewrite booking_validate_submission.
      destruct (Z.leb_spec (sub_check_out s) (sub_check_in s)); [lia |].
      destruct (Z.ltb_spec (sub_check_in s) today); [reflexivity | lia]. }
    split; [exact P | now apply booking_submit_rejected].
  - discriminate.
Qed.

Lemma C2_date_checks_witness :
  (sub_check_out (Sample.request 3 2 2) <= sub_check_in (Sample.request 3 2 2)
   /\ BookingSerializer.submit 5 Sample.db (Sample.request 3 2 2)
      = (Sample.db, Raise DateOrderError))
  /\ (sub_check_in (Sample.request 5 5 2) = 5
      /\ sub_check_out (Sample.request 5 5 2) = 5
      /\ BookingSerializer.submit 5 Sample.db (Sample.request 5 5 2)
         = (Sample.db, Raise DateOrderError))
  /\ (sub_check_in (Sample.request 3 8 2) < sub_check_out (Sample.request 3 8 2)
      /\ sub_check_in (Sample.request 3 8 2) < 5
      /\ BookingSerializer.submit 5 Sample.db (Sample.request 3 8 2)
         = (Sample.db, Raise PastDateError)).
Proof.
  split; [| split].
  - split; [simpl; lia |].
    apply (proj1 (C2_date_checks 5 Sample.db (Sample.request 3 2 2))). simpl; lia.
  - split; [reflexivity | split; [reflexivity |]].
    apply (proj1 (proj2 (C2_date_checks 5 Sample.db (Sample.request 5 5 2))));
      reflexivity.
  - split; [simpl; lia | split; [simpl; lia |]].
    apply (proj1 (proj2 (proj2 (C2_date_checks 5 Sample.db (Sample.request 3 8 2)))));
      simpl; lia.
Defined.

(** C3: with valid dates and [num_guests = 0] the guest-count check is
    skipped: [validate] returns the data, and the booking is stored with no
    guests.  Only on a negative count does [validate] itself raise
    GuestCountError. *)
Theorem C3_zero_guests_accepted :
  BookingSerializer.validate 5 (BookingSerializer.to_internal_value (Sample.request 10 13 0))
  = Ok (BookingSerializer.to_internal_value (Sample.request 10 13 0))
  /\ BookingSerializer.submit 5 Sample.db (Sample.request 10 13 0)
     = (Db.add_booking Sample.db
          (Booking.mk 2 1 2 10 13 0 10000 30000 30000 Booking.PENDING),
        Ok (Booking.mk 2 1 2 10 13 0 10000 30000 30000 Booking.PENDING))
  /\ Booking.num_guests (Booking.mk 2 1 2 10 13 0 10000 30000 30000 Booking.PENDING) < 1
  /\ BookingSerializer.validate 5
       (BookingSerializer.mk (Some Sample.loft) (Some Sample.guest)
                             (Some 10) (Some 13) (Some (-1)) None None None None)
     = Raise GuestCountError.
Proof. repeat split. Qed.

(** ** ReviewSerializer: the eligibility checks *)

Lemma booking_taken_spec (db : Db.t) (b : Booking.t) :
  ReviewSerializer.booking_taken db b = true <->
  exists r, In r (Db.reviews db) /\ Review.booking_id r = Booking.pk b.
Proof.
  unfold ReviewSerializer.booking_taken. rewrite existsb_exists.
  split; intros (r & Hin & H); exists r; (split; [exact Hin |]);
    now apply Z.eqb_eq.
Qed.

Lemma booking_free_spec (db : Db.t) (b : Booking.t) :
  ReviewSerializer.booking_taken db b = false <->
  forall r, In r (Db.reviews db) -> Review.booking_id r <> Booking.pk b.
Proof.
  split.
  - intros F r Hin E.
    assert (T : ReviewSerializer.booking_taken db b = true)
      by (apply booking_taken_spec; now exists r).
    congruence.
  - intros N. destruct (ReviewSerializer.booking_taken db b) eqn:T; [| reflexivity].
    apply booking_taken_spec in T. destruct T as (r & Hin & E).
    now destruct (N r Hin).
Qed.

Lemma rating_in_range (value : Z) :
  (value <? 1) || (value >? 5) = false <-> 1 <= value <= 5.
Proof.
  rewrite orb_false_iff.
  destruct (Z.ltb_spec value 1), (Z.gtb_spec value 5); split;
    try lia; try (intros [? ?]; discriminate); now intros.
Qed.

(** What a review submission comes to, check by check, in the order the
    checks run. *)
Lemma review_submit_cases (db : Db.t) (s : ReviewSerializer.submission) :
  ReviewSerializer.submit db s =
  let b := ReviewSerializer.sub_booking s in
  let rating := ReviewSerializer.sub_overall_rating s in
  if (rating <? 1) || (rating >? 5)
  then (db, Raise (ValidationError "Rating must be between 1 and 5."))
  else if negb (Booking.status_eqb (Booking.status b) Booking.COMPLETED)
       then (db, Raise BookingNotCompletedError)
  else if ReviewSerializer.guest_ne b (ReviewSerializer.sub_reviewer s)
       then (db, Raise WrongReviewerError)
  else if ReviewSerializer.booking_taken db b
       then (db, Raise DuplicateReviewError)
  else
    let r := Review.mk (Db.next_pk (map Review.pk (Db.reviews db)))
                       (Listing.pk (ReviewSerializer.sub_listing s))
                       (Booking.pk b)
                       (User.pk (ReviewSerializer.sub_reviewer s))
                       rating true (ReviewSerializer.sub_comment s)
                       (ReviewSerializer.sub_host_response s) in
    (Db.add_review db r, Ok r).
Proof.
  unfold ReviewSerializer.submit, ReviewSerializer.to_internal_value,
    ReviewSerializer.validate_overall_rating.
  cbv zeta.
  destruct ((_ <? 1) || (_ >? 5)); [reflexivity |].
  unfold bind at 1 2. unfold ReviewSerializer.validate. simpl.
  destruct (Booking.status_eqb _ _) eqn:St; simpl; [| reflexivity].
  destruct (ReviewSerializer.guest_ne _ _); simpl; [reflexivity |].
  unfold ReviewSerializer.create. simpl. rewrite St.
  unfold ReviewSerializer.objects_create. simpl.
  destruct (ReviewSerializer.booking_taken db _); reflexivity.
Qed.

Lemma guest_ne_false (b : Booking.t) (u : User.t) :
  ReviewSerializer.guest_ne b u = false <-> Booking.guest_id b = User.pk u.
Proof.
  unfold ReviewSerializer.guest_ne. rewrite negb_false_iff. apply Z.eqb_eq.
Qed.

Lemma guest_ne_true (b : Booking.t) (u : User.t) :
  ReviewSerializer.guest_ne b u = true <-> Booking.guest_id b <> User.pk u.
Proof.
  unfold ReviewSerializer.guest_ne. rewrite negb_true_iff. apply Z.eqb_neq.
Qed.

(** A submission that passes every check is stored as a verified review of
    the listing it names. *)
Lemma review_submit_accepted (db : Db.t) (s : ReviewSerializer.submission) :
  1 <= ReviewSerializer.sub_overall_rating s <= 5 ->
  Booking.status (ReviewSerializer.sub_booking s) = Booking.COMPLETED ->
  Booking.guest_id (ReviewSerializer.sub_booking s)
  = User.pk (ReviewSerializer.sub_reviewer s) ->
  (forall r, In r (Db.reviews db) ->
             Review.booking_id r <> Booking.pk (ReviewSerializer.sub_booking s)) ->
  exists r,
    ReviewSerializer.submit db s = (Db.add_review db r, Ok r)
    /\ Review.listing_id r = Listing.pk (ReviewSerializer.sub_listing s)
    /\ Review.booking_id r = Booking.pk (ReviewSerializer.sub_booking s)
    /\ Review.reviewer_id r = User.pk (ReviewSerializer.sub_reviewer s)
    /\ Review.overall_rating r = ReviewSerializer.sub_overall_rating s
    /\ Review.is_verified r = true.
Proof.
  intros Hr Hs Hg Hf. rewrite review_submit_cases. cbv zeta.
  apply rating_in_range in Hr. rewrite Hr.
  apply status_eqb_eq in Hs. rewrite Hs. simpl.
  apply guest_ne_false in Hg. rewrite Hg.
  apply booking_free_spec in Hf. rewrite Hf.
  eexists. split; [reflexivity |]. simpl. repeat split; reflexivity.
Qed.

(** Conversely, a stored review passed every check. *)
Lemma review_submit_stored (db db' : Db.t) (s : ReviewSerializer.submission)
      (r : Review.t) :
  ReviewSerializer.submit db s = (db', Ok r) ->
  1 <= ReviewSerializer.sub_overall_rating s <= 5
  /\ Booking.status (ReviewSerializer.sub_booking s) = Booking.COMPLETED
  /\ Booking.guest_id (ReviewSerializer.sub_booking s)
     = User.pk (ReviewSerializer.sub_reviewer s)
  /\ (forall r', In r' (Db.reviews db) ->
                 Review.booking_id r' <> Booking.pk (ReviewSerializer.sub_booking s))
  /\ db' = Db.add_review db r
  /\ Review.is_verified r = true.
Proof.
  rewrite review_submit_cases. cbv zeta.
  destruct ((_ <? 1) || (_ >? 5)) eqn:Hr; [discriminate |].
  destruct (Booking.status_eqb _ _) eqn:Hs; simpl; [| discriminate].
  destruct (ReviewSerializer.guest_ne _ _) eqn:Hg; [discriminate |].
  destruct (ReviewSerializer.booking_taken _ _) eqn:Hf; [discriminate |].
  intros E. injection E as <- <-.
  apply rating_in_range in Hr. apply status_eqb_eq in Hs.
  apply guest_ne_false in Hg.
  repeat split; try lia; try assumption.
  now apply booking_free_spec.
Qed.

(** What the fields hand on, and what they let through. *)
Lemma fields_inr (p : ReviewSerializer.payload) (s : ReviewSerializer.submission) :
  ReviewSerializer.fields p = inr s ->
  s = ReviewSerializer.mk_submission
        (ReviewSerializer.raw_listing p) (ReviewSerializer.raw_booking p)
        (ReviewSerializer.raw_reviewer p) (ReviewSerializer.raw_overall_rating p)
        (strip (ReviewSerializer.raw_comment p))
        (ReviewSerializer.raw_is_verified p)
        (option_map strip (ReviewSerializer.raw_host_response p))
  /\ 1 <= ReviewSerializer.raw_overall_rating p <= 5
  /\ strip (ReviewSerializer.raw_comment p) <> EmptyString
  /\ has_nul (strip (ReviewSerializer.raw_comment p)) = false
  /\ (forall text, ReviewSerializer.raw_host_response p = Some text ->
                   has_nul (strip text) = false).
Proof.
  unfold ReviewSerializer.fields, ReviewSerializer.overall_rating_field,
    ReviewSerializer.char_field. cbv zeta.
  destruct (Z.gtb_spec (ReviewSerializer.raw_overall_rating p) 5);
    destruct (Z.ltb_spec (ReviewSerializer.raw_overall_rating p) 1);
    cbn [app]; try discriminate.
  destruct (String.eqb_spec (strip (ReviewSerializer.raw_comment p)) EmptyString)
    as [Ec | Nc]; [discriminate |].
  destruct (has_nul (strip (ReviewSerializer.raw_comment p))) eqn:Hc;
    [discriminate |].
  destruct (ReviewSerializer.raw_host_response p) as [text |]; cbn [option_map].
  - destruct (String.eqb_spec (strip text) EmptyString) as [Eh | Nh].
    + intros E. injection E as <-. rewrite Eh.
      repeat split; try lia; try assumption.
      intros t Et. injection Et as <-. now rewrite Eh.
    + destruct (has_nul (strip text)) eqn:Hh; [discriminate |].
      intros E. injection E as <-.
      repeat split; try lia; try assumption.
      intros t Et. now injection Et as <-.
  - intros E. injection E as <-.
    repeat split; try lia; try assumption. discriminate.
Qed.

Lemma fields_accepts (p : ReviewSerializer.payload) :
  1 <= ReviewSerializer.raw_overall_rating p <= 5 ->
  strip (ReviewSerializer.raw_comment p) <> EmptyString ->
  has_nul (strip (ReviewSerializer.raw_comment p)) = false ->
  (forall text, ReviewSerializer.raw_host_response p = Some text ->
                has_nul (strip text) = false) ->
  exists s, ReviewSerializer.fields p = inr s.
Proof.
  intros Hr Nc Hc Hh.
  unfold ReviewSerializer.fields, ReviewSerializer.overall_rating_field,
    ReviewSerializer.char_field. cbv zeta.
  destruct (Z.gtb_spec (ReviewSerializer.raw_overall_rating p) 5); [lia |].
  destruct (Z.ltb_spec (ReviewSerializer.raw_overall_rating p) 1); [lia |].
  cbn [app].
  destruct (String.eqb_spec (strip (ReviewSerializer.raw_comment p)) EmptyString);
    [contradiction |].
  rewrite Hc.
  destruct (ReviewSerializer.raw_host_response p) as [text |];
    [| eexists; reflexivity].
  destruct (String.eqb_spec (strip text) EmptyString); [eexists; reflexivity |].
  rewrite (Hh text eq_refl). eexists; reflexivity.
Qed.

(** A rating outside 1 to 5 is reported by its field, whatever the other
    fields hold. *)
Lemma fields_rating_refused (p : ReviewSerializer.payload) :
  ~ 1 <= ReviewSerializer.raw_overall_rating p <= 5 ->
  exists errors, ReviewSerializer.fields p = inl errors /\ RatingRangeError errors.
Proof.
  intros Hr.
  unfold ReviewSerializer.fields, ReviewSerializer.overall_rating_field,
    RatingRangeError. cbv zeta.
  destruct (Z.gtb_spec (ReviewSerializer.raw_overall_rating p) 5);
    destruct (Z.ltb_spec (ReviewSerializer.raw_overall_rating p) 1);
    try lia; cbn [app map];
    (eexists; split; [reflexivity |]); [right | left]; now left.
Qed.

Lemma post_refused (db : Db.t) (p : ReviewSerializer.payload)
      (errors : list (string * string)) :
  ReviewSerializer.fields p = inl errors ->
  ReviewSerializer.post db p = (db, ReviewSerializer.FieldErrors errors).
Proof. intros E. unfold ReviewSerializer.post. now rewrite E. Qed.

Lemma post_passed (db : Db.t) (p : ReviewSerializer.payload)
      (s : ReviewSerializer.submission) :
  ReviewSerializer.fields p = inr s ->
  ReviewSerializer.post db p
  = match ReviewSerializer.submit db s with
    | (db', Ok r) => (db', ReviewSerializer.Stored r)
    | (db', Raise e) => (db', ReviewSerializer.Raised e)
    end.
Proof. intros E. unfold ReviewSerializer.post. now rewrite E. Qed.

(** A stored review went through the fields and then through [submit]. *)
Lemma post_stored (db db' : Db.t) (p : ReviewSerializer.payload) (r : Review.t) :
  ReviewSerializer.post db p = (db', ReviewSerializer.Stored r) ->
  exists s, ReviewSerializer.fields p = inr s
            /\ ReviewSerializer.submit db s = (db', Ok r).
Proof.
  unfold ReviewSerializer.post.
  destruct (ReviewSerializer.fields p) as [errors | s]; [discriminate |].
  destruct (ReviewSerializer.submit db s) as [db1 [r1 | e]] eqn:Es;
    [| discriminate].
  intros E. injection E as <- <-. now exists s.
Qed.

(** C4, as the specification orders the checks: booking 1 of this table is
    Pending, so the first check of that order fails and the error would be
    BookingNotCompletedError.  The rating of 0 is reported instead, by its
    field, before [validate] looks at the booking. *)
Lemma C4_rating_reported_before_status :
  In Fixture.pending (Db.bookings Fixture.db)
  /\ Booking.status Fixture.pending <> Booking.COMPLETED
  /\ ReviewSerializer.post Fixture.db
       (Fixture.review Sample.loft Fixture.pending Sample.guest 0
                       "Amazing place! Highly recommend." None)
     = (Fixture.db,
        ReviewSerializer.FieldErrors
          [("overall_rating", "Ensure this value is greater than or equal to 1.")])
  /\ ReviewSerializer.post Fixture.db
       (Fixture.review Sample.loft Fixture.pending Sample.guest 0
                       "Amazing place! Highly recommend." None)
     <> (Fixture.db, ReviewSerializer.Raised BookingNotCompletedError).
Proof.
  split; [now left |]. split; [simpl; discriminate |].
  split; [reflexivity |]. vm_compute. discriminate.
Qed.

(** C4, amended: the checks of a review submission stop at the first failure
    in this order.  (1) The rating lies in [1,5]: this is checked by its
    field, with the other fields and before anything else, and a failure is
    the field error RatingRangeError.  The fields let a submission through
    exactly when the rating is in range, the comment is not blank and no
    text holds a null character.  For a submission they let through:
    (2) the booking is Completed, else BookingNotCompletedError; (3) the
    reviewer is the booking's guest, else WrongReviewerError; (4) the booking
    has no review yet, else DuplicateReviewError.  No failure writes
    anything, a review is stored only when all four hold, and the table keeps
    at most one review per booking. *)
Theorem C4_review_checks_in_order (db : Db.t) (p : ReviewSerializer.payload) :
  (~ 1 <= ReviewSerializer.raw_overall_rating p <= 5 ->
   exists errors,
     ReviewSerializer.post db p = (db, ReviewSerializer.FieldErrors errors)
     /\ RatingRangeError errors)
  /\ ((exists s, ReviewSerializer.fields p = inr s)
      <-> 1 <= ReviewSerializer.raw_overall_rating p <= 5
          /\ strip (ReviewSerializer.raw_comment p) <> EmptyString
          /\ has_nul (strip (ReviewSerializer.raw_comment p)) = false
          /\ (forall text, ReviewSerializer.raw_host_response p = Some text ->
                           has_nul (strip text) = false))
  /\ (forall s,
         ReviewSerializer.fields p = inr s ->
         Booking.status (ReviewSerializer.raw_booking p) <> Booking.COMPLETED ->
         ReviewSerializer.post db p
         = (db, ReviewSerializer.Raised BookingNotCompletedError))
  /\ (forall s,
         ReviewSerializer.fields p = inr s ->
         Booking.status (ReviewSerializer.raw_booking p) = Booking.COMPLETED ->
         Booking.guest_id (ReviewSerializer.raw_booking p)
         <> User.pk (ReviewSerializer.raw_reviewer p) ->
         ReviewSerializer.post db p
         = (db, ReviewSerializer.Raised WrongReviewerError))
  /\ (forall s,
         ReviewSerializer.fields p = inr s ->
         Booking.status (ReviewSerializer.raw_booking p) = Booking.COMPLETED ->
         Booking.guest_id (ReviewSerializer.raw_booking p)
         = User.pk (ReviewSerializer.raw_reviewer p) ->
         (exists r, In r (Db.reviews db)
                    /\ Review.booking_id r
                       = Booking.pk (ReviewSerializer.raw_booking p)) ->
         ReviewSerializer.post db p
         = (db, ReviewSerializer.Raised DuplicateReviewError))
  /\ (forall s,
         ReviewSerializer.fields p = inr s ->
         Booking.status (ReviewSerializer.raw_booking p) = Booking.COMPLETED ->
         Booking.guest_id (ReviewSerializer.raw_booking p)
         = User.pk (ReviewSerializer.raw_reviewer p) ->
         (forall r, In r (Db.reviews db) ->
                    Review.booking_id r
                    <> Booking.pk (ReviewSerializer.raw_booking p)) ->
         exists r,
           ReviewSerializer.post db p
           = (Db.add_review db r, ReviewSerializer.Stored r)
           /\ Review.booking_id r = Booking.pk (ReviewSerializer.raw_booking p))
  /\ (forall db' r,
         ReviewSerializer.post db p = (db', ReviewSerializer.Stored r) ->
         1 <= ReviewSerializer.raw_overall_rating p <= 5
         /\ Booking.status (ReviewSerializer.raw_booking p) = Booking.COMPLETED
         /\ Booking.guest_id (ReviewSerializer.raw_booking p)
            = User.pk (ReviewSerializer.raw_reviewer p)
         /\ (forall r', In r' (Db.reviews db) ->
                        Review.booking_id r'
                        <> Booking.pk (ReviewSerializer.raw_booking p)))
  /\ (NoDup (map Review.booking_id (Db.reviews db)) ->
      NoDup (map Review.booking_id
                 (Db.reviews (fst (ReviewSerializer.post db p))))).
Proof.
  split; [| split; [| split; [| split; [| split; [| split; [| split]]]]]].
  - intros Hr. destruct (fields_rating_refused p Hr) as (errors & E & K).
    exists errors. split; [now apply post_refused | exact K].
  - split.
    + intros (s & E). destruct (fields_inr p s E) as (_ & H). exact H.
    + intros (Hr & Nc & Hc & Hh). now apply fields_accepts.
  - intros s E Hs. rewrite (post_passed db p s E).
    destruct (fields_inr p s E) as (-> & Hr & _).
    rewrite review_submit_cases. cbv zeta. simpl.
    apply rating_in_range in Hr. rewrite Hr.
    apply status_eqb_neq in Hs. now rewrite Hs.
  - intros s E Hs Hg. rewrite (post_passed db p s E).
    destruct (fields_inr p s E) as (-> & Hr & _).
    rewrite review_submit_cases. cbv zeta. simpl.
    apply rating_in_range in Hr. rewrite Hr.
    apply status_eqb_eq in Hs. rewrite Hs. simpl.
    apply guest_ne_true in Hg. now rewrite Hg.
  - intros s E Hs Hg Hd. rewrite (post_passed db p s E).
    destruct (fields_inr p s E) as (-> & Hr & _).
    rewrite review_submit_cases. cbv zeta. simpl.
    apply rating_in_range in Hr. rewrite Hr.
    apply status_eqb_eq in Hs. rewrite Hs. simpl.
    apply guest_ne_false in Hg. rewrite Hg.
    apply booking_taken_spec in Hd. now rewrite Hd.
  - intros s E Hs Hg Hf. rewrite (post_passed db p s E).
    destruct (fields_inr p s E) as (Es & Hr & _).
    destruct (review_submit_accepted db s) as (r & Er & _ & Hb & _);
      try (rewrite Es; simpl; assumption).
    rewrite Er. exists r. split; [reflexivity |]. rewrite Hb, Es. reflexivity.
  - intros db' r E. destruct (post_stored db db' p r E) as (s & Ef & Es).
    destruct (fields_inr p s Ef) as (Eq & _).
    destruct (review_submit_stored db db' s r Es) as (Hr & Hs & Hg & Hf & _).
    rewrite Eq in Hr, Hs, Hg, Hf. simpl in Hr, Hs, Hg, Hf.
    repeat split; try lia; assumption.
  - intros Hn. unfold ReviewSerializer.post.
    destruct (ReviewSerializer.fields p) as [errors | s]; [exact Hn |].
    destruct (ReviewSerializer.submit db s) as [db' [r | e]] eqn:E.
    + destruct (review_submit_stored db db' s r E) as (Hr & Hs & Hg & Hf & -> & _).
      destruct (review_submit_accepted db s Hr Hs Hg Hf) as (r' & E' & _ & Hb & _).
      rewrite E in E'. injection E' as _ <-.
      simpl. rewrite map_app. simpl.
      apply NoDup_app; [exact Hn | repeat constructor; now intros [] |].
      intros x Hx [<- | []]. revert Hx. rewrite in_map_iff.
      intros (r0 & E0 & Hin). apply (Hf r0 Hin). congruence.
    + simpl. rewrite review_submit_cases in E. cbv zeta in E.
      repeat match type of E with
             | (if ?c then _ else _) = _ => destruct c
             end;
        try discriminate; injection E as <- _; exact Hn.
Qed.

Lemma C4_review_checks_in_order_witness :
  (~ 1 <= ReviewSerializer.raw_overall_rating
            (Fixture.review Sample.loft Fixture.pending Sample.other_guest 7
                            "Overpriced for what you get." None) <= 5
   /\ exists errors,
       ReviewSerializer.post Fixture.db
         (Fixture.review Sample.loft Fixture.pending Sample.other_guest 7
                         "Overpriced for what you get." None)
       = (Fixture.db, ReviewSerializer.FieldErrors errors)
       /\ RatingRangeError errors)
  /\ ReviewSerializer.post Fixture.db
       (Fixture.review Sample.loft Fixture.pending Sample.other_guest 5
                       "Overpriced for what you get." None)
     = (Fixture.db, ReviewSerializer.Raised BookingNotCompletedError)
  /\ ReviewSerializer.post Sample.db
       (Fixture.review Sample.loft Fixture.completed Sample.other_guest 5
                       "Overpriced for what you get." None)
     = (Sample.db, ReviewSerializer.Raised WrongReviewerError)
  /\ ReviewSerializer.post (Db.add_review Sample.db (Sample.rated 1 1 5))
       (Fixture.review Sample.loft Fixture.completed Sample.guest 5
                       "Overpriced for what you get." None)
     = (Db.add_review Sample.db (Sample.rated 1 1 5),
        ReviewSerializer.Raised DuplicateReviewError)
  /\ exists r,
      ReviewSerializer.post Sample.db
        (Fixture.review Sample.loft Fixture.completed Sample.guest 5
                        "Overpriced for what you get." None)
      = (Db.add_review Sample.db r, ReviewSerializer.Stored r)
      /\ Review.booking_id r = 1.
Proof.
  split; [| split; [| split; [| split]]].
  - assert (N : ~ 1 <= ReviewSerializer.raw_overall_rating
                         (Fixture.review Sample.loft Fixture.pending
                            Sample.other_guest 7
                            "Overpriced for what you get." None) <= 5)
      by (simpl; lia).
    split; [exact N |].
    exact (proj1 (C4_review_checks_in_order Fixture.db _) N).
  - eapply (proj1 (proj2 (proj2 (C4_review_checks_in_order Fixture.db _))));
      [reflexivity | simpl; discriminate].
  - eapply (proj1 (proj2 (proj2 (proj2 (C4_review_checks_in_order Sample.db _)))));
      [reflexivity | reflexivity | simpl; discriminate].
  - eapply (proj1 (proj2 (proj2 (proj2 (proj2 (C4_review_checks_in_order _ _))))));
      [reflexivity | reflexivity | reflexivity |].
    exists (Sample.rated 1 1 5). split; [now left | reflexivity].
  - eapply (proj1 (proj2 (proj2 (proj2 (proj2 (proj2
              (C4_review_checks_in_order Sample.db
                 (Fixture.review Sample.loft Fixture.completed Sample.guest 5
                                 "Overpriced for what you get." None))))))));
      [reflexivity | reflexivity | reflexivity |].
    intros r [].
Defined.

(** C9: every review stored through the serializer is verified: the booking
    it was accepted for is Completed, so [create] sets [is_verified] over the
    column default of false, and the [is_verified] of the payload, being
    read-only, changes nothing. *)
Theorem C9_created_review_is_verified (db db' : Db.t)
        (s : ReviewSerializer.submission) (r : Review.t) :
  ReviewSerializer.submit db s = (db', Ok r) ->
  Review.is_verified r = true
  /\ In r (Db.reviews db')
  /\ Booking.status (ReviewSerializer.sub_booking s) = Booking.COMPLETED
  /\ Review.is_verified_default = false
  /\ (forall v : option bool,
         ReviewSerializer.submit db
           (ReviewSerializer.mk_submission
              (ReviewSerializer.sub_listing s) (ReviewSerializer.sub_booking s)
              (ReviewSerializer.sub_reviewer s)
              (ReviewSerializer.sub_overall_rating s)
              (ReviewSerializer.sub_comment s) v
              (ReviewSerializer.sub_host_response s))
         = (db', Ok r)).
Proof.
  intros E.
  destruct (review_submit_stored db db' s r E) as (_ & Hs & _ & _ & -> & Hv).
  split; [exact Hv | split; [| split; [exact Hs | split; [reflexivity |]]]].
  - simpl. apply in_or_app. right. now left.
  - intros v. rewrite <- E. rewrite !review_submit_cases. reflexivity.
Qed.

Lemma C9_created_review_is_verified_witness :
  ReviewSerializer.submit Sample.db
    (Sample.review_of Sample.loft (Sample.stay 10 13 Booking.COMPLETED) Sample.guest 5)
  = (Db.add_review Sample.db
       (Review.mk 1 1 1 2 5 true "Amazing place! Highly recommend." None),
     Ok (Review.mk 1 1 1 2 5 true "Amazing place! Highly recommend." None))
  /\ ReviewSerializer.sub_is_verified
       (Sample.review_of Sample.loft (Sample.stay 10 13 Booking.COMPLETED)
                         Sample.guest 5)
     = Some false
  /\ Review.is_verified (Review.mk 1 1 1 2 5 true "Amazing place! Highly recommend." None)
     = true.
Proof.
  assert (E : ReviewSerializer.submit Sample.db
                (Sample.review_of Sample.loft (Sample.stay 10 13 Booking.COMPLETED)
                                  Sample.guest 5)
              = (Db.add_review Sample.db
                   (Review.mk 1 1 1 2 5 true "Amazing place! Highly recommend." None),
                 Ok (Review.mk 1 1 1 2 5 true "Amazing place! Highly recommend." None)))
    by reflexivity.
  split; [exact E | split; [reflexivity |]].
  exact (proj1 (C9_created_review_is_verified _ _ _ _ E)).
Defined.

(** ** Listing: the rating aggregate *)

Lemma reviews_spec (table : list Review.t) (l : Listing.t) (r : Review.t) :
  In r (Listing.reviews table l) <->
  In r table /\ Review.listing_id r = Listing.pk l.
Proof.
  unfold Listing.reviews. rewrite filter_In. now rewrite Z.eqb_eq.
Qed.


Lemma count_reviews_occ (table : list Review.t) (l : Listing.t) :
  List.length (Listing.reviews table l)
  = count_occ Z.eq_dec (map Review.listing_id table) (Listing.pk l).
Proof.
  unfold Listing.reviews.
  induction table as [| r table IH]; simpl; [reflexivity |].
  destruct (Z.eqb_spec (Review.listing_id r) (Listing.pk l)) as [E | N];
    destruct (Z.eq_dec (Review.listing_id r) (Listing.pk l)) as [E' | N'];
    simpl; congruence.
Qed.


Lemma inject_Z_sum (xs : list Z) :
  (inject_Z (sum xs) == fold_right Qplus 0 (map inject_Z xs))%Q.
Proof.
  induction xs as [| x xs IH]; simpl; [reflexivity |].
  unfold sum in *. simpl. now rewrite inject_Z_plus, IH.
Qed.


Lemma average_rating_py_nonempty (table : list Review.t) (l : Listing.t) :
  Listing.reviews table l <> [] ->
  Listing.average_rating_py table l
  = Returns (PyFloat
               (SFdiv 53 1024
                  (float_of_int (sum (map Review.overall_rating
                                          (Listing.reviews table l))))
                  (float_of_int (Z.of_nat (List.length (Listing.reviews table l)))))).
Proof.
  intros N. unfold Listing.average_rating_py, truediv, Listing.count. cbv zeta.
  destruct (Listing.reviews table l) as [| r rs] eqn:E; [contradiction |].
  cbn [Listing.exists_].
  destruct (Z.eqb_spec (Z.of_nat (List.length (r :: rs))) 0) as [Z0 | _];
    [cbn [List.length] in Z0; lia | reflexivity].
Qed.

(** C8, as the specification states it: the average of the ratings 5, 4, 4
    would be their arithmetic mean, 13/3.  The property returns the float
    4.333333333333333, which is another number. *)
Lemma C8_float_is_not_the_mean :
  map Review.overall_rating (Listing.reviews Fixture.rated_5_4_4 Sample.loft)
  = [5; 4; 4]
  /\ Listing.average_rating_py Fixture.rated_5_4_4 Sample.loft
     = Returns (PyFloat (S754_finite false 4878899596318037 (-50)))
  /\ exists q,
      float_value (S754_finite false 4878899596318037 (-50)) = Some q
      /\ ~ Qeq q (arithmetic_mean [5; 4; 4]).
Proof.
  split; [reflexivity |]. split; [vm_compute; reflexivity |].
  eexists. split; [reflexivity |]. vm_compute. discriminate.
Qed.

(** C8, amended: [average_rating] is computed over the reviews of the
    listing, the rows of the review table that refer to it.  With no such
    row it is the integer 0 and no division takes place; otherwise it is the
    float quotient of the sum of their ratings by their number, the
    arithmetic mean as binary64 division rounds it.  It is never an error;
    over the ratings 5, 3, 4 it is the float 4.0 exactly; [review_count] is
    the number of those rows. *)
Theorem C8_average_rating (table : list Review.t) (l : Listing.t) :
  (forall r, In r (Listing.reviews table l) <->
             In r table /\ Review.listing_id r = Listing.pk l)
  /\ (Listing.reviews table l = [] ->
      Listing.average_rating_py table l = Returns (PyInt 0))
  /\ (Listing.reviews table l <> [] ->
      Listing.average_rating_py table l
      = Returns (PyFloat
                   (SFdiv 53 1024
                      (float_of_int (sum (map Review.overall_rating
                                              (Listing.reviews table l))))
                      (float_of_int (Listing.review_count table l)))))
  /\ (exists v, Listing.average_rating_py table l = Returns v)
  /\ (forall a b, truediv a b = ZeroDivisionError <-> b = 0)
  /\ (map Review.overall_rating (Listing.reviews table l) = [5; 3; 4] ->
      Listing.average_rating_py table l
      = Returns (PyFloat (S754_finite false 4503599627370496 (-50)))
      /\ exists q, float_value (S754_finite false 4503599627370496 (-50)) = Some q
                   /\ (q == 4)%Q)
  /\ Listing.review_count table l
     = Z.of_nat (count_occ Z.eq_dec (map Review.listing_id table) (Listing.pk l)).
Proof.
  split; [| split; [| split; [| split; [| split; [| split]]]]].
  - intros r. apply reviews_spec.
  - intros E. unfold Listing.average_rating_py. now rewrite E.
  - intros N. now rewrite (average_rating_py_nonempty _ _ N).
  - destruct (Listing.reviews table l) as [| r rs] eqn:E.
    + exists (PyInt 0). unfold Listing.average_rating_py. now rewrite E.
    + eexists. apply average_rating_py_nonempty. rewrite E. discriminate.
  - intros a b. unfold truediv.
    destruct (Z.eqb_spec b 0); split; try discriminate; try reflexivity;
      try contradiction; now intros.
  - intros E.
    assert (N : Listing.reviews table l <> [])
      by (intros Z; rewrite Z in E; discriminate).
    rewrite (average_rating_py_nonempty _ _ N).
    rewrite <- (length_map Review.overall_rating), E.
    split; [vm_compute; reflexivity |].
    eexists. split; [reflexivity |]. vm_compute. reflexivity.
  - unfold Listing.review_count, Listing.count. now rewrite count_reviews_occ.
Qed.

Lemma C8_average_rating_witness :
  (Listing.reviews [] Sample.loft = []
   /\ Listing.average_rating_py [] Sample.loft = Returns (PyInt 0))
  /\ (map Review.overall_rating
          (Listing.reviews [Sample.rated 1 1 5; Sample.rated 2 2 3; Sample.rated 3 3 4]
                           Sample.loft)
      = [5; 3; 4]
      /\ Listing.average_rating_py
           [Sample.rated 1 1 5; Sample.rated 2 2 3; Sample.rated 3 3 4] Sample.loft
         = Returns (PyFloat (S754_finite false 4503599627370496 (-50)))).
Proof.
  split; (split; [reflexivity |]).
  - apply (proj1 (proj2 (C8_average_rating [] Sample.loft))). reflexivity.
  - apply (proj1 (proj2 (proj2 (proj2 (proj2 (proj2
             (C8_average_rating
                [Sample.rated 1 1 5; Sample.rated 2 2 3; Sample.rated 3 3 4]
                Sample.loft))))))).
    reflexivity.
Defined.




(** * Further properties *)

Lemma can_cancel_true_iff (today : date) (b : Booking.t) :
  Booking.can_cancel today b = true <->
  Booking.status b <> Booking.CANCELLED /\ Booking.check_in b - today > 2.
Proof.
  unfold Booking.can_cancel.
  destruct (Booking.status_eqb _ _) eqn:E.
  - apply status_eqb_eq in E. split; [discriminate | intros [N _]; contradiction].
  - apply status_eqb_neq in E. rewrite days_until_checkin_max.
    split; [intros H; apply Z.gtb_lt in H | intros [_ H]; apply Z.gtb_lt]; 
      try split; try assumption; lia.
Qed.

Lemma is_active_true_iff (today : date) (b : Booking.t) :
  Booking.is_active today b = true <->
  Booking.status b = Booking.CONFIRMED
  /\ Booking.check_in b <= today <= Booking.check_out b.
Proof.
  unfold Booking.is_active.
  rewrite !andb_true_iff, status_eqb_eq, !Z.leb_le. tauto.
Qed.


(** ** Booking over time *)

(** X1: on no day is a booking both cancellable and active. *)
Theorem can_cancel_excludes_is_active (today : date) (b : Booking.t) :
  Booking.can_cancel today b && Booking.is_active today b = false.
Proof.
  destruct (Booking.can_cancel today b) eqn:C; [| reflexivity].
  apply can_cancel_true_iff in C. destruct C as [_ D].
  simpl. unfold Booking.is_active.
  destruct (Z.leb_spec (Booking.check_in b) today); [lia |].
  now rewrite andb_false_r.
Qed.

(** X2: the cancellation window only closes: a booking that can be cancelled
    on some day could be cancelled on every earlier day, and one that cannot
    be cancelled stays so on every later day. *)
Theorem can_cancel_earlier (today earlier : date) (b : Booking.t) :
  earlier <= today ->
  Booking.can_cancel today b = true ->
  Booking.can_cancel earlier b = true.
Proof.
  intros Hle C.
  apply can_cancel_true_iff in C. destruct C as [N D].
  apply can_cancel_true_iff. split; [exact N | lia].
Qed.

Lemma can_cancel_earlier_witness :
  3 <= 7
  /\ Booking.can_cancel 7 (Sample.stay 10 13 Booking.PENDING) = true
  /\ Booking.can_cancel 3 (Sample.stay 10 13 Booking.PENDING) = true.
Proof.
  assert (L : 3 <= 7) by lia.
  assert (C : Booking.can_cancel 7 (Sample.stay 10 13 Booking.PENDING) = true)
    by reflexivity.
  split; [exact L | split; [exact C |]].
  exact (can_cancel_earlier 7 3 _ L C).
Defined.

(** X3: [days_until_checkin] counts down: [k] days later it is [k] less,
    and it stops at 0. *)
Theorem days_until_checkin_later (today k : Z) (b : Booking.t) :
  0 <= k ->
  Booking.days_until_checkin (today + k) b
  = Z.max 0 (Booking.days_until_checkin today b - k).
Proof.
  intros Hk. rewrite !days_until_checkin_max. lia.
Qed.

Lemma days_until_checkin_later_witness :
  0 <= 2
  /\ Booking.days_until_checkin (7 + 2) (Sample.stay 10 13 Booking.PENDING)
     = Z.max 0 (Booking.days_until_checkin 7 (Sample.stay 10 13 Booking.PENDING) - 2).
Proof.
  assert (L : 0 <= 2) by lia.
  split; [exact L |].
  exact (days_until_checkin_later 7 2 _ L).
Defined.

(** X4: a Confirmed booking is active on the days 0 to [num_nights] after
    the check-in, the day of the check-out included, and on no day at all
    when its check-out lies before its check-in. *)
Theorem is_active_window (today : date) (b : Booking.t) :
  Booking.status b = Booking.CONFIRMED ->
  (Booking.is_active today b = true <->
   0 <= today - Booking.check_in b <= Booking.num_nights b)
  /\ (Booking.num_nights b < 0 -> Booking.is_active today b = false).
Proof.
  intros Hs. pose proof (is_active_true_iff today b) as A.
  unfold Booking.num_nights. split.
  - rewrite A. split; [intros [_ H]; lia | intros H; split; [exact Hs | lia]].
  - intros Hn. destruct (Booking.is_active today b); [| reflexivity].
    destruct (proj1 A eq_refl) as [_ H]. lia.
Qed.

Lemma is_active_window_witness :
  Booking.status (Sample.stay 10 13 Booking.CONFIRMED) = Booking.CONFIRMED
  /\ Booking.is_active 13 (Sample.stay 10 13 Booking.CONFIRMED) = true
  /\ Booking.is_active 14 (Sample.stay 10 13 Booking.CONFIRMED) = false.
Proof.
  assert (S : Booking.status (Sample.stay 10 13 Booking.CONFIRMED) = Booking.CONFIRMED)
    by reflexivity.
  split; [exact S | split].
  - apply (proj1 (is_active_window 13 _ S)).
    unfold Booking.num_nights; simpl; lia.
  - destruct (Booking.is_active 14 (Sample.stay 10 13 Booking.CONFIRMED)) eqn:A;
      [| reflexivity].
    apply (proj1 (is_active_window 14 _ S)) in A.
    unfold Booking.num_nights in A; simpl in A. lia.
Defined.

(** ** BookingSerializer: what validation lets through *)

(** X5: [validate] raises a [TypeError] whenever the data lacks one of the
    two dates, as the data of a partial update may, whatever else it holds. *)
Theorem booking_validate_missing_date (today : date) (d : BookingSerializer.data) :
  BookingSerializer.check_in d = None \/ BookingSerializer.check_out d = None ->
  BookingSerializer.validate today d = Raise TypeError.
Proof.
  unfold BookingSerializer.validate. cbv zeta.
  intros [H | H]; rewrite H; [destruct (BookingSerializer.check_out d) |];
    reflexivity.
Qed.

Lemma booking_validate_missing_date_witness :
  BookingSerializer.validate 5
    (BookingSerializer.mk (Some Sample.loft) (Some Sample.guest) None (Some 13)
                          (Some 2) None None None None)
  = Raise TypeError.
Proof.
  apply booking_validate_missing_date. left. reflexivity.
Defined.

(** X6: [validate] never alters the data: what it returns is its argument,
    and then both dates are there, the check-in not before today and the
    check-out after it. *)
Theorem booking_validate_returns_argument (today : date)
        (d d' : BookingSerializer.data) :
  BookingSerializer.validate today d = Ok d' ->
  d' = d
  /\ exists ci co,
      BookingSerializer.check_in d = Some ci
      /\ BookingSerializer.check_out d = Some co
      /\ today <= ci < co.
Proof.
  unfold BookingSerializer.validate. cbv zeta.
  destruct (BookingSerializer.check_in d) as [ci |];
    destruct (BookingSerializer.check_out d) as [co |]; simpl; try discriminate.
  destruct (Z.leb_spec co ci); [discriminate |].
  destruct (Z.ltb_spec ci today); [discriminate |].
  intros E.
  assert (D : d' = d).
  { destruct (truthy _ && truthy_int _); [| congruence].
    destruct (BookingSerializer.num_guests d) as [n |]; [| congruence].
    destruct (n <? 1); [discriminate | congruence]. }
  split; [exact D |]. exists ci, co. repeat split; lia.
Qed.

Lemma booking_validate_returns_argument_witness :
  BookingSerializer.validate 5
    (BookingSerializer.to_internal_value (Sample.request 10 13 2))
  = Ok (BookingSerializer.to_internal_value (Sample.request 10 13 2))
  /\ exists ci co,
      BookingSerializer.check_in
        (BookingSerializer.to_internal_value (Sample.request 10 13 2)) = Some ci
      /\ BookingSerializer.check_out
           (BookingSerializer.to_internal_value (Sample.request 10 13 2)) = Some co
      /\ 5 <= ci < co.
Proof.
  assert (E : BookingSerializer.validate 5
                (BookingSerializer.to_internal_value (Sample.request 10 13 2))
              = Ok (BookingSerializer.to_internal_value (Sample.request 10 13 2)))
    by reflexivity.
  split; [exact E |].
  exact (proj2 (booking_validate_returns_argument 5 _ _ E)).
Defined.

Lemma booking_accepted_when (today : date) (db : Db.t)
      (s : BookingSerializer.submission) :
  (exists db' b, BookingSerializer.submit today db s = (db', Ok b))
  <-> today <= sub_check_in s < sub_check_out s /\ 0 <= sub_num_guests s.
Proof.
  split.
  - intros (db' & b & E).
    destruct (BookingSerializer.validate today (BookingSerializer.to_internal_value s))
      as [vd | e] eqn:V.
    + destruct (booking_validate_returns_data _ _ _ V) as (_ & H1 & H2).
      split; [lia |].
      rewrite booking_validate_submission in V.
      destruct (sub_check_out s <=? sub_check_in s); [discriminate |].
      destruct (sub_check_in s <? today); [discriminate |].
      destruct (Z.eqb_spec (sub_num_guests s) 0); [lia |].
      destruct (Z.ltb_spec (sub_num_guests s) 1); [discriminate | lia].
    + rewrite (booking_submit_rejected today db s e V) in E. discriminate.
  - intros [[H1 H2] H3].
    destruct (booking_submit_accepted today db s) as (b & E & _).
    + rewrite booking_validate_submission.
      destruct (Z.leb_spec (sub_check_out s) (sub_check_in s)); [lia |].
      destruct (Z.ltb_spec (sub_check_in s) today); [lia |].
      destruct (Z.eqb_spec (sub_num_guests s) 0); [reflexivity |].
      destruct (Z.ltb_spec (sub_num_guests s) 1); [lia | reflexivity].
    + now exists (Db.add_booking db b), b.
Qed.

(** X7: a booking submission is accepted exactly when the check-in is not
    before today, the check-out is after the check-in and the number of
    guests is not negative. *)
Theorem booking_submit_accepted_iff (today : date) (db : Db.t)
        (s : BookingSerializer.submission) :
  (exists db' b, BookingSerializer.submit today db s = (db', Ok b))
  <-> today <= sub_check_in s < sub_check_out s /\ 0 <= sub_num_guests s.
Proof. apply booking_accepted_when. Qed.

Lemma next_pk_above (pks : list Z) (p : Z) :
  In p pks -> p < Db.next_pk pks.
Proof.
  unfold Db.next_pk. induction pks as [| q pks IH]; cbn [fold_right In];
    [contradiction |].
  intros [-> | H]; [lia |]. specialize (IH H). lia.
Qed.

(** The row an accepted submission stores. *)
Lemma booking_submit_row (today : date) (db db' : Db.t)
      (s : BookingSerializer.submission) (b : Booking.t) :
  BookingSerializer.submit today db s = (db', Ok b) ->
  db' = Db.add_booking db b
  /\ b = Booking.mk (Db.next_pk (map Booking.pk (Db.bookings db)))
                    (Listing.pk (sub_listing s)) (User.pk (sub_guest s))
                    (sub_check_in s) (sub_check_out s) (sub_num_guests s)
                    (Listing.price_per_night (sub_listing s))
                    (Listing.price_per_night (sub_listing s)
                     * (sub_check_out s - sub_check_in s))
                    (Listing.price_per_night (sub_listing s)
                     * (sub_check_out s - sub_check_in s))
                    (match sub_status s with
                     | Some st => st
                     | None => Booking.status_default
                     end).
Proof.
  intros E.
  destruct (BookingSerializer.validate today (BookingSerializer.to_internal_value s))
    as [vd | e] eqn:V.
  - destruct (booking_validate_returns_data _ _ _ V) as (-> & _).
    unfold BookingSerializer.submit in E. rewrite V in E. unfold bind in E.
    rewrite booking_create_submission in E. cbv zeta in E.
    injection E as <- <-. split; reflexivity.
  - rewrite (booking_submit_rejected today db s e V) in E. discriminate.
Qed.

(** X8: nothing guards a listing against double booking: a submission that
    was accepted is accepted again, and the table then holds two bookings of
    the same listing for the same dates. *)
Theorem booking_submit_twice (today : date) (db db1 : Db.t)
        (s : BookingSerializer.submission) (b1 : Booking.t) :
  BookingSerializer.submit today db s = (db1, Ok b1) ->
  exists b2,
    BookingSerializer.submit today db1 s = (Db.add_booking db1 b2, Ok b2)
    /\ Booking.pk b2 <> Booking.pk b1
    /\ Booking.listing_id b2 = Booking.listing_id b1
    /\ Booking.check_in b2 = Booking.check_in b1
    /\ Booking.check_out b2 = Booking.check_out b1
    /\ In b1 (Db.bookings (Db.add_booking db1 b2))
    /\ In b2 (Db.bookings (Db.add_booking db1 b2)).
Proof.
  intros E.
  assert (A : exists db' b, BookingSerializer.submit today db s = (db', Ok b))
    by (now exists db1, b1).
  apply booking_accepted_when in A.
  apply (booking_accepted_when today db1 s) in A.
  destruct A as (db2 & b2 & E2).
  destruct (booking_submit_row _ _ _ _ _ E) as [-> R1].
  destruct (booking_submit_row _ _ _ _ _ E2) as [-> R2].
  exists b2. split; [exact E2 |].
  assert (P : Booking.pk b1 < Booking.pk b2).
  { rewrite R2 at 1. simpl. apply next_pk_above.
    rewrite map_app. apply in_or_app. right. now left. }
  split; [lia |].
  rewrite R1, R2. simpl. repeat split.
  - apply in_or_app. left. apply in_or_app. right. now left.
  - apply in_or_app. right. now left.
Qed.

Lemma booking_submit_twice_witness :
  BookingSerializer.submit 5 Sample.db (Sample.request 10 13 2)
  = (Db.add_booking Sample.db
       (Booking.mk 2 1 2 10 13 2 10000 30000 30000 Booking.PENDING),
     Ok (Booking.mk 2 1 2 10 13 2 10000 30000 30000 Booking.PENDING))
  /\ exists b2,
      BookingSerializer.submit 5
        (Db.add_booking Sample.db
           (Booking.mk 2 1 2 10 13 2 10000 30000 30000 Booking.PENDING))
        (Sample.request 10 13 2)
      = (Db.add_booking
           (Db.add_booking Sample.db
              (Booking.mk 2 1 2 10 13 2 10000 30000 30000 Booking.PENDING)) b2,
         Ok b2)
      /\ Booking.check_in b2 = 10 /\ Booking.check_out b2 = 13.
Proof.
  assert (E : BookingSerializer.submit 5 Sample.db (Sample.request 10 13 2)
              = (Db.add_booking Sample.db
                   (Booking.mk 2 1 2 10 13 2 10000 30000 30000 Booking.PENDING),
                 Ok (Booking.mk 2 1 2 10 13 2 10000 30000 30000 Booking.PENDING)))
    by reflexivity.
  split; [exact E |].
  destruct (booking_submit_twice 5 _ _ _ _ E) as (b2 & E2 & _ & _ & Hi & Ho & _).
  exists b2. split; [exact E2 | split; [exact Hi | exact Ho]].
Defined.

(** X9: a booking submission writes to the booking table only, and there it
    adds at most one row after the rows that were there: users, listings and
    reviews, and with them every listing's aggregate, stay as they were. *)
Theorem booking_submit_frame (today : date) (db : Db.t)
        (s : BookingSerializer.submission) :
  Db.users (fst (BookingSerializer.submit today db s)) = Db.users db
  /\ Db.listings (fst (BookingSerializer.submit today db s)) = Db.listings db
  /\ Db.reviews (fst (BookingSerializer.submit today db s)) = Db.reviews db
  /\ exists added,
      Db.bookings (fst (BookingSerializer.submit today db s))
      = Db.bookings db ++ added
      /\ (List.length added <= 1)%nat.
Proof.
  destruct (BookingSerializer.submit today db s) as [db' [b | e]] eqn:E.
  - destruct (booking_submit_row _ _ _ _ _ E) as [-> _]. simpl.
    repeat split. exists [b]. split; [reflexivity | simpl; lia].
  - assert (db' = db) as ->.
    { unfold BookingSerializer.submit in E.
      destruct (bind _ _) as [[? ?] | ?]; [discriminate |].
      now injection E as <- _. }
    simpl. repeat split. exists []. split; [now rewrite app_nil_r | simpl; lia].
Qed.

(** X10: a booking accepted for a check-in at most two days ahead can never
    be cancelled, neither on the day it is made nor later. *)
Theorem late_booking_never_cancellable (today later : date) (db db' : Db.t)
        (s : BookingSerializer.submission) (b : Booking.t) :
  BookingSerializer.submit today db s = (db', Ok b) ->
  sub_check_in s <= today + 2 ->
  today <= later ->
  Booking.can_cancel later b = false.
Proof.
  intros E Hc Hl.
  destruct (booking_submit_row _ _ _ _ _ E) as [_ R].
  destruct (Booking.can_cancel later b) eqn:C; [| reflexivity].
  apply can_cancel_true_iff in C. destruct C as [_ D].
  rewrite R in D. simpl in D. lia.
Qed.

Lemma late_booking_never_cancellable_witness :
  BookingSerializer.submit 8 Sample.db (Sample.request 10 13 2)
  = (Db.add_booking Sample.db
       (Booking.mk 2 1 2 10 13 2 10000 30000 30000 Booking.PENDING),
     Ok (Booking.mk 2 1 2 10 13 2 10000 30000 30000 Booking.PENDING))
  /\ sub_check_in (Sample.request 10 13 2) <= 8 + 2
  /\ 8 <= 9
  /\ Booking.can_cancel 9 (Booking.mk 2 1 2 10 13 2 10000 30000 30000 Booking.PENDING)
     = false.
Proof.
  assert (E : BookingSerializer.submit 8 Sample.db (Sample.request 10 13 2)
              = (Db.add_booking Sample.db
                   (Booking.mk 2 1 2 10 13 2 10000 30000 30000 Booking.PENDING),
                 Ok (Booking.mk 2 1 2 10 13 2 10000 30000 30000 Booking.PENDING)))
    by reflexivity.
  assert (H1 : sub_check_in (Sample.request 10 13 2) <= 8 + 2) by (simpl; lia).
  assert (H2 : 8 <= 9) by lia.
  split; [exact E | split; [exact H1 | split; [exact H2 |]]].
  exact (late_booking_never_cancellable 8 9 _ _ _ _ E H1 H2).
Defined.

(** X11: [status] is writable at creation, so a stay that has not begun can
    be sent as Completed and reviewed at once: with the foreign keys of the
    review table intact, the guest's review of it, rated 1 to 5 and with a
    comment that is not blank and holds no null character, is stored and
    marked verified. *)
Theorem future_stay_reviewable (today : date) (db db1 : Db.t)
        (s : BookingSerializer.submission) (b : Booking.t)
        (rating : Z) (comment : string) :
  sub_status s = Some Booking.COMPLETED ->
  BookingSerializer.submit today db s = (db1, Ok b) ->
  (forall r, In r (Db.reviews db) ->
             In (Review.booking_id r) (map Booking.pk (Db.bookings db))) ->
  1 <= rating <= 5 ->
  strip comment <> EmptyString ->
  has_nul (strip comment) = false ->
  today <= Booking.check_in b
  /\ exists r,
      ReviewSerializer.post db1
        (ReviewSerializer.mk_payload (sub_listing s) b (sub_guest s)
                                     rating comment None None)
      = (Db.add_review db1 r, ReviewSerializer.Stored r)
      /\ Review.booking_id r = Booking.pk b
      /\ Review.comment r = strip comment
      /\ Review.is_verified r = true.
Proof.
  intros Hst E Fk Hr Nc Hc.
  assert (A : exists db' b', BookingSerializer.submit today db s = (db', Ok b'))
    by (now exists db1, b).
  apply booking_accepted_when in A. destruct A as [[Ht _] _].
  destruct (booking_submit_row _ _ _ _ _ E) as [-> R].
  split; [rewrite R; simpl; exact Ht |].
  destruct (fields_accepts
              (ReviewSerializer.mk_payload (sub_listing s) b (sub_guest s)
                                           rating comment None None))
    as (v & Ef); try assumption; [intros text Et; discriminate |].
  destruct (fields_inr _ _ Ef) as (Ev & _). simpl in Ev.
  rewrite (post_passed _ _ _ Ef).
  assert (Free : ReviewSerializer.booking_taken (Db.add_booking db b) b = false).
  { apply booking_free_spec. simpl. intros r Hin Eq. specialize (Fk r Hin).
    apply next_pk_above in Fk. rewrite R in Eq. simpl in Eq. lia. }
  rewrite review_submit_cases. cbv zeta. rewrite Ev. simpl.
  apply rating_in_range in Hr. rewrite Hr.
  assert (St : Booking.status b = Booking.COMPLETED)
    by (rewrite R; simpl; now rewrite Hst).
  rewrite St. simpl.
  assert (G : ReviewSerializer.guest_ne b (sub_guest s) = false)
    by (apply guest_ne_false; rewrite R; reflexivity).
  rewrite G, Free.
  eexists. split; [reflexivity |]. simpl. repeat split.
Qed.

Lemma future_stay_reviewable_witness :
  exists r,
    ReviewSerializer.post
      (Db.add_booking Sample.db
         (Booking.mk 2 1 2 10 13 2 10000 30000 30000 Booking.COMPLETED))
      (ReviewSerializer.mk_payload
         Sample.loft (Booking.mk 2 1 2 10 13 2 10000 30000 30000 Booking.COMPLETED)
         Sample.guest 5 " Great value for money. " None None)
    = (Db.add_review
         (Db.add_booking Sample.db
            (Booking.mk 2 1 2 10 13 2 10000 30000 30000 Booking.COMPLETED)) r,
       ReviewSerializer.Stored r)
    /\ Review.comment r = "Great value for money."
    /\ Review.is_verified r = true.
Proof.
  destruct (future_stay_reviewable 5 Sample.db
              (Db.add_booking Sample.db
                 (Booking.mk 2 1 2 10 13 2 10000 30000 30000 Booking.COMPLETED))
              (BookingSerializer.mk_submission Sample.loft Sample.guest 10 13 2
                 (Some Booking.COMPLETED) None None None)
              (Booking.mk 2 1 2 10 13 2 10000 30000 30000 Booking.COMPLETED)
              5 " Great value for money. ")
    as (_ & r & E & _ & C & V).
  - reflexivity.
  - reflexivity.
  - intros r [].
  - lia.
  - vm_compute. discriminate.
  - reflexivity.
  - exists r. split; [exact E | split; [exact C | exact V]].
Defined.

(** ** ReviewSerializer: what validation lets through *)

(** X12: [validate] checks nothing on data without a booking, and skips the
    reviewer check on data without a reviewer: it returns such data as it
    is. *)
Theorem review_validate_missing_keys (d : ReviewSerializer.data) :
  ReviewSerializer.booking d = None
  \/ (ReviewSerializer.reviewer d = None
      /\ exists b, ReviewSerializer.booking d = Some b
                   /\ Booking.status b = Booking.COMPLETED) ->
  ReviewSerializer.validate d = Ok d.
Proof.
  unfold ReviewSerializer.validate. cbv zeta.
  intros [H | (H & b & Hb & Hs)].
  - now rewrite H.
  - rewrite Hb, H, Hs. reflexivity.
Qed.

Lemma review_validate_missing_keys_witness :
  ReviewSerializer.validate
    (ReviewSerializer.mk (Some Sample.loft) None (Some Sample.other_guest)
                         (Some 9) None None None)
  = Ok (ReviewSerializer.mk (Some Sample.loft) None (Some Sample.other_guest)
                            (Some 9) None None None).
Proof.
  apply review_validate_missing_keys. left. reflexivity.
Defined.

(** The table a review submission leaves: the old one, or the old one with
    the stored row after it. *)
Lemma review_submit_table (db : Db.t) (s : ReviewSerializer.submission) :
  fst (ReviewSerializer.submit db s) = db
  \/ exists r,
      ReviewSerializer.submit db s = (Db.add_review db r, Ok r)
      /\ Review.listing_id r = Listing.pk (ReviewSerializer.sub_listing s)
      /\ Review.overall_rating r = ReviewSerializer.sub_overall_rating s
      /\ Review.host_response r = ReviewSerializer.sub_host_response s
      /\ 1 <= ReviewSerializer.sub_overall_rating s <= 5.
Proof.
  rewrite review_submit_cases. cbv zeta.
  destruct ((_ <? 1) || (_ >? 5)) eqn:Hr; [now left |].
  destruct (negb _); [now left |].
  destruct (ReviewSerializer.guest_ne _ _); [now left |].
  destruct (ReviewSerializer.booking_taken _ _); [now left |].
  right. eexists. split; [reflexivity |]. simpl.
  apply rating_in_range in Hr. repeat split; lia.
Qed.

(** X13: review submissions keep the ratings of the table within 1 to 5. *)
Theorem review_submit_keeps_ratings (db : Db.t) (s : ReviewSerializer.submission) :
  ratings_within 1 5 (Db.reviews db) ->
  ratings_within 1 5 (Db.reviews (fst (ReviewSerializer.submit db s))).
Proof.
  intros Inv.
  destruct (review_submit_table db s) as [-> | (r & -> & _ & Hr & _ & Hb)];
    [exact Inv |].
  simpl. intros x Hx. apply in_app_or in Hx. destruct Hx as [Hx | [<- | []]].
  - now apply Inv.
  - now rewrite Hr.
Qed.

Lemma review_submit_keeps_ratings_witness :
  ratings_within 1 5
    (Db.reviews
       (fst (ReviewSerializer.submit Sample.db
               (Sample.review_of Sample.loft (Sample.stay 10 13 Booking.COMPLETED)
                                 Sample.guest 5)))).
Proof.
  apply review_submit_keeps_ratings. intros r [].
Defined.

(** X14: a review submission touches the aggregate of the listing it names
    and of no other: the reviews, the count and the average of every other
    listing are as before, and so are users, listings and bookings. *)
Theorem review_submit_frame (db : Db.t) (s : ReviewSerializer.submission)
        (l : Listing.t) :
  Listing.pk l <> Listing.pk (ReviewSerializer.sub_listing s) ->
  Listing.reviews (Db.reviews (fst (ReviewSerializer.submit db s))) l
  = Listing.reviews (Db.reviews db) l
  /\ Listing.review_count (Db.reviews (fst (ReviewSerializer.submit db s))) l
     = Listing.review_count (Db.reviews db) l
  /\ Listing.average_rating (Db.reviews (fst (ReviewSerializer.submit db s))) l
     = Listing.average_rating (Db.reviews db) l
  /\ Db.bookings (fst (ReviewSerializer.submit db s)) = Db.bookings db
  /\ Db.listings (fst (ReviewSerializer.submit db s)) = Db.listings db
  /\ Db.users (fst (ReviewSerializer.submit db s)) = Db.users db.
Proof.
  intros N.
  assert (R : Listing.reviews (Db.reviews (fst (ReviewSerializer.submit db s))) l
              = Listing.reviews (Db.reviews db) l
              /\ Db.bookings (fst (ReviewSerializer.submit db s)) = Db.bookings db
              /\ Db.listings (fst (ReviewSerializer.submit db s)) = Db.listings db
              /\ Db.users (fst (ReviewSerializer.submit db s)) = Db.users db).
  { destruct (review_submit_table db s) as [-> | (r & -> & Hl & _)];
      [repeat split |].
    simpl. repeat split. unfold Listing.reviews. rewrite filter_app. simpl.
    destruct (Z.eqb_spec (Review.listing_id r) (Listing.pk l));
      [congruence | apply app_nil_r]. }
  destruct R as (R & B & L & U).
  unfold Listing.review_count, Listing.average_rating. cbv zeta.
  rewrite R. repeat split; assumption.
Qed.

Lemma review_submit_frame_witness :
  Listing.pk Sample.villa <> Listing.pk Sample.loft
  /\ Listing.review_count
       (Db.reviews
          (fst (ReviewSerializer.submit Sample.db
                  (Sample.review_of Sample.loft (Sample.stay 10 13 Booking.COMPLETED)
                                    Sample.guest 5))))
       Sample.villa
     = Listing.review_count (Db.reviews Sample.db) Sample.villa.
Proof.
  assert (N : Listing.pk Sample.villa <> Listing.pk Sample.loft)
    by (simpl; discriminate).
  split; [exact N |].
  exact (proj1 (proj2 (review_submit_frame Sample.db
                         (Sample.review_of Sample.loft
                            (Sample.stay 10 13 Booking.COMPLETED) Sample.guest 5)
                         Sample.villa N))).
Defined.

(** X15: the host's response is writable at creation, and stored stripped:
    a stored review carries the [host_response] of the payload without its
    leading and trailing whitespace, and counts as responded to exactly when
    that text is not blank. *)
Theorem review_submit_host_response (db db' : Db.t)
        (p : ReviewSerializer.payload) (r : Review.t) :
  ReviewSerializer.post db p = (db', ReviewSerializer.Stored r) ->
  Review.host_response r = option_map strip (ReviewSerializer.raw_host_response p)
  /\ (Review.has_host_responded r = true <->
      exists text, ReviewSerializer.raw_host_response p = Some text
                   /\ strip text <> EmptyString).
Proof.
  intros E. destruct (post_stored db db' p r E) as (s & Ef & Es).
  destruct (fields_inr p s Ef) as (Ev & _).
  assert (H : Review.host_response r = ReviewSerializer.sub_host_response s).
  { destruct (review_submit_table db s) as [F | (r' & E' & _ & _ & Hh & _)].
    - rewrite Es in F. simpl in F. subst db'.
      rewrite review_submit_cases in Es. cbv zeta in Es.
      repeat match type of Es with
             | (if ?c then _ else _) = _ => destruct c
             end; try discriminate.
      injection Es as D _. exfalso.
      apply (f_equal (fun d => List.length (Db.reviews d))) in D.
      simpl in D. rewrite length_app in D. simpl in D. lia.
    - rewrite Es in E'. injection E' as _ <-. exact Hh. }
  rewrite Ev in H. simpl in H.
  split; [exact H |].
  unfold Review.has_host_responded. rewrite H.
  destruct (ReviewSerializer.raw_host_response p) as [text |]; cbn [option_map].
  - rewrite negb_true_iff. split.
    + intros Ne. exists text. split; [reflexivity |]. now apply String.eqb_neq.
    + intros (t & Et & Ne). injection Et as <-. now apply String.eqb_neq.
  - split; [discriminate | intros (t & Et & _); discriminate].
Qed.

Lemma review_submit_host_response_witness :
  ReviewSerializer.post Sample.db
    (Fixture.review Sample.loft Fixture.completed Sample.guest 5
                    "Great value for money." (Some "   "))
  = (Db.add_review Sample.db
       (Review.mk 1 1 1 2 5 true "Great value for money." (Some EmptyString)),
     ReviewSerializer.Stored
       (Review.mk 1 1 1 2 5 true "Great value for money." (Some EmptyString)))
  /\ Review.host_response
       (Review.mk 1 1 1 2 5 true "Great value for money." (Some EmptyString))
     = option_map strip (Some "   ")
  /\ Review.has_host_responded
       (Review.mk 1 1 1 2 5 true "Great value for money." (Some EmptyString))
     = false.
Proof.
  assert (E : ReviewSerializer.post Sample.db
                (Fixture.review Sample.loft Fixture.completed Sample.guest 5
                                "Great value for money." (Some "   "))
              = (Db.add_review Sample.db
                   (Review.mk 1 1 1 2 5 true "Great value for money."
                              (Some EmptyString)),
                 ReviewSerializer.Stored
                   (Review.mk 1 1 1 2 5 true "Great value for money."
                              (Some EmptyString))))
    by reflexivity.
  split; [exact E |].
  split; [exact (proj1 (review_submit_host_response _ _ _ _ E)) |].
  destruct (Review.has_host_responded
              (Review.mk 1 1 1 2 5 true "Great value for money." (Some EmptyString)))
    eqn:R; [| reflexivity].
  apply (proj1 (proj2 (review_submit_host_response _ _ _ _ E))) in R.
  destruct R as (text & Et & Ne). injection Et as <-.
  exfalso. apply Ne. reflexivity.
Defined.

(** ** Listing: more on the rating aggregate *)







Lemma reviews_permutation (table table' : list Review.t) (l : Listing.t) :
  Permutation table table' ->
  Permutation (Listing.reviews table l) (Listing.reviews table' l).
Proof.
  unfold Listing.reviews.
  induction 1 as [| x t t' _ IH | x y t | t1 t2 t3 _ IH1 _ IH2]; simpl.
  - constructor.
  - destruct (_ =? _); [now constructor | exact IH].
  - destruct (Review.listing_id x =? _), (Review.listing_id y =? _);
      try reflexivity; apply perm_swap.
  - now transitivity (filter (fun r => Review.listing_id r =? Listing.pk l) t2).
Qed.

Lemma sum_permutation (xs ys : list Z) : Permutation xs ys -> sum xs = sum ys.
Proof.
  unfold sum. induction 1; simpl; lia.
Qed.

(** X18: the aggregate does not depend on the order of the rows: over any
    rearrangement of the review table a listing has the same count and the
    same average. *)
Theorem average_rating_permutation (table table' : list Review.t) (l : Listing.t) :
  Permutation table table' ->
  Listing.review_count table l = Listing.review_count table' l
  /\ Listing.average_rating table l = Listing.average_rating table' l.
Proof.
  intros P. apply (reviews_permutation _ _ l) in P.
  assert (L : List.length (Listing.reviews table l)
              = List.length (Listing.reviews table' l))
    by now apply Permutation_length.
  assert (S : sum (map Review.overall_rating (Listing.reviews table l))
              = sum (map Review.overall_rating (Listing.reviews table' l)))
    by now apply sum_permutation, Permutation_map.
  unfold Listing.review_count, Listing.average_rating, Listing.count. cbv zeta.
  rewrite S, L. split; [reflexivity |].
  destruct (Listing.reviews table l), (Listing.reviews table' l);
    try reflexivity; discriminate.
Qed.

Lemma average_rating_permutation_witness :
  Listing.average_rating
    [Sample.rated 1 1 5; Sample.rated 2 2 3; Sample.rated 3 3 4] Sample.loft
  = Listing.average_rating
      [Sample.rated 2 2 3; Sample.rated 1 1 5; Sample.rated 3 3 4] Sample.loft.
Proof.
  apply average_rating_permutation. apply perm_swap.
Defined.

(** ** ListingSerializer *)

(** What a listing submission comes to, check by check. *)
Lemma listing_submit_cases (db : Db.t) (s : ListingSerializer.submission) :
  ListingSerializer.submit db s =
  if ListingSerializer.sub_price_per_night s <=? 0
  then (db, Raise (ValidationError "Price per night must be greater than 0."))
  else if ListingSerializer.sub_bedrooms s <? 1
  then (db, Raise (ValidationError "Listing must have at least 1 bedroom."))
  else if ListingSerializer.sub_bathrooms s <? 1
  then (db, Raise (ValidationError "Listing must have at least 1 bathroom."))
  else
    let l := Listing.mk (Db.next_pk (map Listing.pk (Db.listings db)))
                        (ListingSerializer.sub_title s)
                        (ListingSerializer.sub_bedrooms s)
                        (ListingSerializer.sub_bathrooms s)
                        (ListingSerializer.sub_price_per_night s)
                        (match ListingSerializer.sub_is_active s with
                         | Some a => a
                         | None => ListingSerializer.is_active_default
                         end)
                        (User.pk (ListingSerializer.sub_host s)) in
    (Db.mk (Db.users db) (Db.listings db ++ [l]) (Db.bookings db) (Db.reviews db),
     Ok l).
Proof.
  unfold ListingSerializer.submit, ListingSerializer.to_internal_value,
    ListingSerializer.validate_price_per_night.
  destruct (_ <=? 0); [reflexivity |].
  unfold bind at 1 2. unfold ListingSerializer.validate. simpl.
  destruct (ListingSerializer.sub_bedrooms s <? 1); [reflexivity |].
  destruct (ListingSerializer.sub_bathrooms s <? 1); reflexivity.
Qed.

(** X19: a listing submission is accepted exactly when the price is positive
    and there is at least one bedroom and one bathroom; the stored listing
    carries the submitted values and is active unless the payload says
    otherwise. *)
Theorem listing_submit_accepted_iff (db : Db.t) (s : ListingSerializer.submission) :
  ((exists db' l, ListingSerializer.submit db s = (db', Ok l))
   <-> 0 < ListingSerializer.sub_price_per_night s
       /\ 1 <= ListingSerializer.sub_bedrooms s
       /\ 1 <= ListingSerializer.sub_bathrooms s)
  /\ (forall db' l,
         ListingSerializer.submit db s = (db', Ok l) ->
         In l (Db.listings db')
         /\ Listing.price_per_night l = ListingSerializer.sub_price_per_night s
         /\ Listing.bedrooms l = ListingSerializer.sub_bedrooms s
         /\ Listing.bathrooms l = ListingSerializer.sub_bathrooms s
         /\ Listing.host_id l = User.pk (ListingSerializer.sub_host s)
         /\ (ListingSerializer.sub_is_active s = None -> Listing.is_active l = true)).
Proof.
  rewrite listing_submit_cases. cbv zeta.
  destruct (Z.leb_spec (ListingSerializer.sub_price_per_night s) 0);
    [| destruct (Z.ltb_spec (ListingSerializer.sub_bedrooms s) 1);
       [| destruct (Z.ltb_spec (ListingSerializer.sub_bathrooms s) 1)]].
  1-3: split; [split; [intros (? & ? & ?); discriminate | lia]
              | intros ? ? ?; discriminate].
  split.
  - split; [lia |]. intros _. eexists. eexists. reflexivity.
  - intros db' l E. injection E as <- <-. simpl.
    split; [apply in_or_app; right; now left |].
    repeat split. intros ->. reflexivity.
Qed.

(** X20: the checks of a listing submission stop at the first failure, the
    price first, then the bedrooms, then the bathrooms, and a failure leaves
    the tables as they were. *)
Theorem listing_submit_error_order (db : Db.t) (s : ListingSerializer.submission) :
  (ListingSerializer.sub_price_per_night s <= 0 ->
   ListingSerializer.submit db s
   = (db, Raise (ValidationError "Price per night must be greater than 0.")))
  /\ (0 < ListingSerializer.sub_price_per_night s ->
      ListingSerializer.sub_bedrooms s < 1 ->
      ListingSerializer.submit db s
      = (db, Raise (ValidationError "Listing must have at least 1 bedroom.")))
  /\ (0 < ListingSerializer.sub_price_per_night s ->
      1 <= ListingSerializer.sub_bedrooms s ->
      ListingSerializer.sub_bathrooms s < 1 ->
      ListingSerializer.submit db s
      = (db, Raise (ValidationError "Listing must have at least 1 bathroom."))).
Proof.
  rewrite listing_submit_cases. cbv zeta.
  destruct (Z.leb_spec (ListingSerializer.sub_price_per_night s) 0);
    [| destruct (Z.ltb_spec (ListingSerializer.sub_bedrooms s) 1);
       [| destruct (Z.ltb_spec (ListingSerializer.sub_bathrooms s) 1)]];
    repeat split; intros; try reflexivity; lia.
Qed.

Lemma listing_submit_error_order_witness :
  ListingSerializer.submit Sample.db
    (ListingSerializer.mk_submission "Modern Studio in Tokyo" 0 0 0 None Sample.host)
  = (Sample.db, Raise (ValidationError "Price per night must be greater than 0."))
  /\ ListingSerializer.submit Sample.db
       (ListingSerializer.mk_submission "Modern Studio in Tokyo" 0 0 5000 None
                                        Sample.host)
     = (Sample.db, Raise (ValidationError "Listing must have at least 1 bedroom."))
  /\ ListingSerializer.submit Sample.db
       (ListingSerializer.mk_submission "Modern Studio in Tokyo" 1 0 5000 None
                                        Sample.host)
     = (Sample.db, Raise (ValidationError "Listing must have at least 1 bathroom.")).
Proof.
  split; [| split].
  - apply (proj1 (listing_submit_error_order Sample.db _)). simpl; lia.
  - apply (proj1 (proj2 (listing_submit_error_order Sample.db _))); simpl; lia.
  - apply (proj2 (proj2 (listing_submit_error_order Sample.db _))); simpl; lia.
Defined.

(** X21: [validate] reads a missing [bedrooms] or [bathrooms] key as 0: data
    without [bedrooms], as a partial update sends when it changes something
    else, is refused for its bedrooms whatever it holds, and data with
    bedrooms but without [bathrooms] for its bathrooms. *)
Theorem listing_validate_missing_rooms (d : ListingSerializer.data) :
  (ListingSerializer.bedrooms d = None ->
   ListingSerializer.validate d
   = Raise (ValidationError "Listing must have at least 1 bedroom."))
  /\ (forall n, ListingSerializer.bedrooms d = Some n -> 1 <= n ->
                ListingSerializer.bathrooms d = None ->
                ListingSerializer.validate d
                = Raise (ValidationError "Listing must have at least 1 bathroom.")).
Proof.
  unfold ListingSerializer.validate. split.
  - intros ->. reflexivity.
  - intros n -> Hn ->. simpl.
    destruct (Z.ltb_spec n 1); [lia | reflexivity].
Qed.

Lemma listing_validate_missing_rooms_witness :
  ListingSerializer.validate
    (ListingSerializer.mk (Some "Elegant Suite in Rome") None (Some 2) None None None)
  = Raise (ValidationError "Listing must have at least 1 bedroom.")
  /\ ListingSerializer.validate
       (ListingSerializer.mk None (Some 3) None (Some 9900) None None)
     = Raise (ValidationError "Listing must have at least 1 bathroom.").
Proof.
  split.
  - apply (proj1 (listing_validate_missing_rooms _)). reflexivity.
  - apply (proj2 (listing_validate_missing_rooms _) 3); [reflexivity | lia | reflexivity].
Defined.

(** X22: a booking accepted for a listing that went through the listing
    serializer costs at least one night: its total is at least its price
    per night, which is positive. *)
Theorem booking_of_validated_listing (today : date) (db0 db1 db2 db3 : Db.t)
        (ls : ListingSerializer.submission) (l : Listing.t)
        (s : BookingSerializer.submission) (b : Booking.t) :
  ListingSerializer.submit db0 ls = (db1, Ok l) ->
  sub_listing s = l ->
  BookingSerializer.submit today db2 s = (db3, Ok b) ->
  0 < Booking.price_per_night b <= Booking.total_price b.
Proof.
  intros El Hl Eb.
  rewrite listing_submit_cases in El. cbv zeta in El.
  destruct (Z.leb_spec (ListingSerializer.sub_price_per_night ls) 0);
    [discriminate |].
  destruct (_ <? 1); [discriminate |].
  destruct (_ <? 1); [discriminate |].
  injection El as _ <-.
  assert (A : exists db' b', BookingSerializer.submit today db2 s = (db', Ok b'))
    by (now exists db3, b).
  apply booking_accepted_when in A. destruct A as [[_ Hd] _].
  destruct (booking_submit_row _ _ _ _ _ Eb) as [_ ->].
  rewrite Hl. simpl. nia.
Qed.

(** ** The seed command *)

Lemma hd_choice_ok {A : Type} (d : A) : Seed.choice_ok (fun l => hd d l).
Proof.
  intros [| x l] N; [contradiction | now left].
Defined.

Lemma first_random_ok : Seed.random_ok Seed.first_random.
Proof.
  unfold Seed.random_ok, Seed.first_random; simpl.
  split; [intros a b H; lia |].
  repeat split; apply hd_choice_ok.
Defined.

Lemma create_listings_from_spec (rnd : nat -> Seed.random) (hosts : list User.t)
      (n i : nat) (db : Db.t) :
  (forall j, Seed.random_ok (rnd j)) ->
  hosts <> [] ->
  exists ls,
    Seed.create_listings_from rnd hosts i n db
    = Ok (Db.mk (Db.users db) (Db.listings db ++ ls) (Db.bookings db) (Db.reviews db),
          ls)
    /\ List.length ls = n
    /\ Forall (seeded_listing hosts) ls.
Proof.
  intros R H. revert i db.
  induction n as [| n IH]; intros i db.
  - exists []. simpl. rewrite app_nil_r. destruct db; repeat split. constructor.
  - cbn [Seed.create_listings_from]. cbv zeta.
    unfold ListingSerializer.create. simpl.
    match goal with
    | |- context [Seed.create_listings_from rnd hosts (S i) n ?d] =>
        destruct (IH (S i) d) as (ls & E & L & F); rewrite E
    end.
    simpl. eexists. split; [| split].
    + rewrite <- app_assoc. reflexivity.
    + simpl. now rewrite L.
    + constructor; [| exact F].
      destruct (R i) as (Ri & _ & _ & Ru & _).
      unfold seeded_listing. simpl.
      split; [exists (Seed.randint (rnd i) 50 500); split;
              [apply Ri; lia | reflexivity] |].
      split; [apply Ri; lia |]. split; [apply Ri; lia |].
      split; [reflexivity |].
      exists (Seed.choice_user (rnd i) hosts). split; [now apply Ru | reflexivity].
Qed.

Lemma create_listings_spec (rnd : nat -> Seed.random) (hosts : list User.t)
      (db : Db.t) :
  (forall j, Seed.random_ok (rnd j)) ->
  hosts <> [] ->
  exists ls,
    Seed.create_listings rnd hosts db
    = Ok (Db.mk (Db.users db) (Db.listings db ++ ls) (Db.bookings db) (Db.reviews db),
          ls)
    /\ List.length ls = 30%nat
    /\ Forall (seeded_listing hosts) ls.
Proof.
  intros R H.
  destruct (create_listings_from_spec rnd hosts 30 0 db R H) as (ls & E & L & F).
  exists ls. repeat split; assumption.
Qed.

(** X23: with a non-empty list of hosts [create_listings] does not fail and
    adds 30 listings after the rows of the listing table, touching no other
    table.  Each is active, belongs to one of the hosts, has 1 to 4 bedrooms,
    1 to 3 bathrooms and a price of 50 to 500 whole units, and so meets the
    conditions of the listing serializer: a positive price and at least one
    bedroom and bathroom. *)
Theorem create_listings_rows (rnd : nat -> Seed.random) (hosts : list User.t)
        (db : Db.t) :
  (forall j, Seed.random_ok (rnd j)) ->
  hosts <> [] ->
  exists ls,
    Seed.create_listings rnd hosts db
    = Ok (Db.mk (Db.users db) (Db.listings db ++ ls) (Db.bookings db) (Db.reviews db),
          ls)
    /\ List.length ls = 30%nat
    /\ Forall (seeded_listing hosts) ls
    /\ Forall (fun l => 0 < Listing.price_per_night l
                        /\ 1 <= Listing.bedrooms l /\ 1 <= Listing.bathrooms l) ls.
Proof.
  intros R H.
  destruct (create_listings_spec rnd hosts db R H) as (ls & E & L & F).
  exists ls. repeat split; try assumption.
  eapply Forall_impl; [| exact F].
  intros l ((u & Hu & Hp) & Hb & Ht & _). lia.
Qed.

Lemma create_listings_rows_witness :
  exists ls,
    Seed.create_listings (fun _ => Seed.first_random) [Sample.host] Sample.db
    = Ok (Db.mk (Db.users Sample.db) (Db.listings Sample.db ++ ls)
                (Db.bookings Sample.db) (Db.reviews Sample.db),
          ls)
    /\ List.length ls = 30%nat.
Proof.
  destruct (create_listings_rows (fun _ => Seed.first_random) [Sample.host] Sample.db)
    as (ls & E & L & _).
  - intros _. exact first_random_ok.
  - discriminate.
  - exists ls. split; [exact E | exact L].
Defined.

Lemma create_bookings_from_spec (rnd : nat -> Seed.random) (today : date)
      (listings : list Listing.t) (guests : list User.t) (n i : nat) (db : Db.t) :
  (forall j, Seed.random_ok (rnd j)) ->
  listings <> [] ->
  guests <> [] ->
  exists bs,
    Seed.create_bookings_from rnd today listings guests i n db
    = Ok (Db.mk (Db.users db) (Db.listings db)
                (Db.bookings db ++ map Seed.row bs) (Db.reviews db),
          bs)
    /\ List.length bs = n
    /\ Forall (seeded_booking today listings guests) bs
    /\ Forall (fun b => forall p, In p (map Booking.pk (Db.bookings db)) ->
                                  p < Booking.pk (Seed.row b)) bs
    /\ NoDup (map (fun b => Booking.pk (Seed.row b)) bs).
Proof.
  intros R Hl Hg. revert i db.
  induction n as [| n IH]; intros i db.
  - exists []. simpl. rewrite app_nil_r. destruct db.
    repeat split; constructor.
  - cbn [Seed.create_bookings_from]. cbv zeta.
    unfold BookingSerializer.objects_create. cbn [bind BookingSerializer.column
      BookingSerializer.listing BookingSerializer.guest BookingSerializer.check_in
      BookingSerializer.check_out BookingSerializer.num_guests
      BookingSerializer.price_per_night BookingSerializer.subtotal
      BookingSerializer.total_price BookingSerializer.status fst snd].
    match goal with
    | |- context [Seed.create_bookings_from rnd today listings guests (S i) n ?d] =>
        destruct (IH (S i) d) as (bs & E & L & F & P & N); rewrite E
    end.
    cbn [bind fst snd].
    match goal with
    | |- context [Seed.mk_booking_object ?r ?l ?g :: bs] =>
        set (b := r) in *; set (o := Seed.mk_booking_object r l g)
    end.
    exists (o :: bs). split; [| split; [| split; [| split]]].
    + simpl. rewrite <- app_assoc. reflexivity.
    + simpl. now rewrite L.
    + constructor; [| exact F].
      destruct (R i) as (Ri & _ & _ & Ru & Rl & _).
      pose proof (Ri 30 180 ltac:(lia)). pose proof (Ri 2 14 ltac:(lia)).
      pose proof (Ri 5 60 ltac:(lia)). pose proof (Ri 10 30 ltac:(lia)).
      pose proof (Ri 2 7 ltac:(lia)). pose proof (Ri (-30) 30 ltac:(lia)).
      pose proof (Ri 1 4 ltac:(lia)).
      unfold seeded_booking, o, b, Booking.num_nights.
      cbn [Seed.row Seed.listing Seed.guest Booking.listing_id Booking.guest_id
           Booking.price_per_night Booking.subtotal Booking.total_price
           Booking.num_guests Booking.status Booking.check_in Booking.check_out].
      split; [now apply Rl |]. split; [now apply Ru |].
      do 5 (split; [reflexivity |]). split; [assumption |].
      destruct (Seed.choice_status (rnd i) Seed.statuses);
        cbn [Booking.status_eqb fst snd]; lia.
    + constructor.
      * intros p Hp. unfold o, b. cbn [Seed.row Booking.pk].
        now apply next_pk_above.
      * eapply Forall_impl; [| exact P].
        intros x Hx p Hp. apply Hx. simpl. rewrite map_app.
        apply in_or_app. now left.
    + cbn [map]. constructor; [| exact N].
      intros Hin. apply in_map_iff in Hin. destruct Hin as (x & Ex & Hx).
      rewrite Forall_forall in P. specialize (P x Hx (Booking.pk b)).
      assert (Lt : Booking.pk b < Booking.pk (Seed.row x)).
      { apply P. simpl. rewrite map_app. apply in_or_app. right. now left. }
      unfold o, b in Ex, Lt. cbn [Seed.row Booking.pk] in Ex, Lt. lia.
Qed.

Lemma create_bookings_spec (rnd : nat -> Seed.random) (today : date)
      (listings : list Listing.t) (guests : list User.t) (db : Db.t) :
  (forall j, Seed.random_ok (rnd j)) ->
  listings <> [] ->
  guests <> [] ->
  exists bs,
    Seed.create_bookings rnd today listings guests db
    = Ok (Db.mk (Db.users db) (Db.listings db)
                (Db.bookings db ++ map Seed.row bs) (Db.reviews db),
          bs)
    /\ List.length bs = 50%nat
    /\ Forall (seeded_booking today listings guests) bs
    /\ Forall (fun b => forall p, In p (map Booking.pk (Db.bookings db)) ->
                                  p < Booking.pk (Seed.row b)) bs
    /\ NoDup (map (fun b => Booking.pk (Seed.row b)) bs).
Proof.
  intros R Hl Hg.
  destruct (create_bookings_from_spec rnd today listings guests 50 0 db R Hl Hg)
    as (bs & E & L & F & P & N).
  exists bs. repeat split; assumption.
Qed.

(** X24: with non-empty lists of listings and guests [create_bookings] does
    not fail and adds 50 bookings after the rows of the booking table,
    touching no other table.  Each is for one of the listings and one of the
    guests, has 1 to 4 guests, a check-out 2 to 14 days after the check-in,
    and the prices the booking serializer would lock: the listing's price
    per night, and that price times the nights as subtotal and total. *)
Theorem create_bookings_rows (rnd : nat -> Seed.random) (today : date)
        (listings : list Listing.t) (guests : list User.t) (db : Db.t) :
  (forall j, Seed.random_ok (rnd j)) ->
  listings <> [] ->
  guests <> [] ->
  exists bs,
    Seed.create_bookings rnd today listings guests db
    = Ok (Db.mk (Db.users db) (Db.listings db)
                (Db.bookings db ++ map Seed.row bs) (Db.reviews db),
          bs)
    /\ List.length bs = 50%nat
    /\ Forall (seeded_booking today listings guests) bs
    /\ Forall (fun b =>
                 2 <= Booking.check_out (Seed.row b) - Booking.check_in (Seed.row b)
                   <= 14
                 /\ Booking.total_price (Seed.row b)
                    = Listing.price_per_night (Seed.listing b)
                      * (Booking.check_out (Seed.row b)
                         - Booking.check_in (Seed.row b))) bs.
Proof.
  intros R Hl Hg.
  destruct (create_bookings_spec rnd today listings guests db R Hl Hg)
    as (bs & E & L & F & _).
  exists bs. repeat split; try assumption.
  eapply Forall_impl; [| exact F].
  intros b (_ & _ & _ & _ & Hp & Hs & Ht & _ & Hd).
  unfold Booking.num_nights in *. rewrite Ht, Hs, Hp.
  split; [| reflexivity].
  destruct (Booking.status (Seed.row b)); lia.
Qed.

Lemma create_bookings_rows_witness :
  exists bs,
    Seed.create_bookings (fun _ => Seed.first_random) 100
                         [Sample.loft] [Sample.guest] Sample.db
    = Ok (Db.mk (Db.users Sample.db) (Db.listings Sample.db)
                (Db.bookings Sample.db ++ map Seed.row bs) (Db.reviews Sample.db),
          bs)
    /\ List.length bs = 50%nat.
Proof.
  destruct (create_bookings_rows (fun _ => Seed.first_random) 100
                                 [Sample.loft] [Sample.guest] Sample.db)
    as (bs & E & L & _).
  - intros _. exact first_random_ok.
  - discriminate.
  - discriminate.
  - exists bs. split; [exact E | exact L].
Defined.

Lemma seeded_booking_on_the_day (today : date) (listings : list Listing.t)
      (guests : list User.t) (b : Seed.booking_object) :
  seeded_booking today listings guests b ->
  Booking.is_active today (Seed.row b) = false
  /\ (Booking.can_cancel today (Seed.row b) = true <->
      Booking.status (Seed.row b) = Booking.CONFIRMED
      \/ Booking.status (Seed.row b) = Booking.PENDING)
  /\ (Booking.status (Seed.row b) = Booking.COMPLETED ->
      Booking.check_out (Seed.row b) < today
      /\ forall db,
          BookingSerializer.submit today db
            (BookingSerializer.mk_submission
               (Seed.listing b) (Seed.guest b)
               (Booking.check_in (Seed.row b)) (Booking.check_out (Seed.row b))
               (Booking.num_guests (Seed.row b))
               (Some (Booking.status (Seed.row b))) None None None)
          = (db, Raise PastDateError)).
Proof.
  intros (_ & _ & _ & _ & _ & _ & _ & _ & Hd).
  unfold Booking.num_nights in Hd.
  split; [| split].
  - destruct (Booking.is_active today (Seed.row b)) eqn:A; [| reflexivity].
    apply is_active_true_iff in A. destruct A as [S A]. rewrite S in Hd. lia.
  - rewrite can_cancel_true_iff.
    destruct (Booking.status (Seed.row b));
      (split; [intros [N D] | intros [D | D]]);
      try discriminate; try congruence; try (now left); try (now right);
      try (split; [discriminate | lia]); lia.
  - intros S. rewrite S in Hd. split; [lia |].
    intros db. apply booking_submit_rejected.
    rewrite booking_validate_submission. simpl.
    destruct (Z.leb_spec (Booking.check_out (Seed.row b))
                         (Booking.check_in (Seed.row b))); [lia |].
    destruct (Z.ltb_spec (Booking.check_in (Seed.row b)) today);
      [reflexivity | lia].
Qed.

(** X25: on the day of seeding none of the seeded bookings is active, and
    the ones that can be cancelled are exactly the Confirmed and the Pending
    ones.  The Completed ones ended before that day: their dates, sent to
    the booking serializer, are refused with PastDateError. *)
Theorem create_bookings_on_the_day (rnd : nat -> Seed.random) (today : date)
        (listings : list Listing.t) (guests : list User.t) (db db' : Db.t)
        (bs : list Seed.booking_object) :
  (forall j, Seed.random_ok (rnd j)) ->
  listings <> [] ->
  guests <> [] ->
  Seed.create_bookings rnd today listings guests db = Ok (db', bs) ->
  Forall (fun b =>
            Booking.is_active today (Seed.row b) = false
            /\ (Booking.can_cancel today (Seed.row b) = true <->
                Booking.status (Seed.row b) = Booking.CONFIRMED
                \/ Booking.status (Seed.row b) = Booking.PENDING)
            /\ (Booking.status (Seed.row b) = Booking.COMPLETED ->
                Booking.check_out (Seed.row b) < today
                /\ forall db0,
                    BookingSerializer.submit today db0
                      (BookingSerializer.mk_submission
                         (Seed.listing b) (Seed.guest b)
                         (Booking.check_in (Seed.row b))
                         (Booking.check_out (Seed.row b))
                         (Booking.num_guests (Seed.row b))
                         (Some (Booking.status (Seed.row b))) None None None)
                    = (db0, Raise PastDateError))) bs.
Proof.
  intros R Hl Hg E.
  destruct (create_bookings_spec rnd today listings guests db R Hl Hg)
    as (bs' & E' & _ & F & _).
  rewrite E' in E. injection E as _ <-.
  eapply Forall_impl; [| exact F].
  intros b. apply seeded_booking_on_the_day.
Qed.

(** [review.save()] right after the insert replaces the row just added. *)
Lemma save_just_created (db : Db.t) (r r' : Review.t) :
  Review.pk r = Db.next_pk (map Review.pk (Db.reviews db)) ->
  Review.pk r' = Review.pk r ->
  Seed.save (Db.add_review db r) r' = Db.add_review db r'.
Proof.
  intros Hr Hr'. unfold Seed.save, Db.add_review. simpl. f_equal.
  rewrite map_app. simpl. rewrite Hr', Z.eqb_refl. f_equal.
  rewrite <- (map_id (Db.reviews db)) at 2. apply map_ext_in.
  intros x Hx.
  assert (Lt : Review.pk x < Review.pk r)
    by (rewrite Hr; apply next_pk_above; now apply in_map).
  destruct (Z.eqb_spec (Review.pk x) (Review.pk r)); [lia | reflexivity].
Qed.

Lemma create_reviews_from_spec (rnd : nat -> Seed.random)
      (bs : list Seed.booking_object) (i : nat) (db : Db.t) :
  (forall j, Seed.random_ok (rnd j)) ->
  NoDup (map (fun b => Booking.pk (Seed.row b)) bs) ->
  (forall b, In b bs ->
             forall r, In r (Db.reviews db) ->
                       Review.booking_id r <> Booking.pk (Seed.row b)) ->
  exists rs,
    Seed.create_reviews_from rnd i bs db
    = Ok (Db.mk (Db.users db) (Db.listings db) (Db.bookings db)
                (Db.reviews db ++ rs),
          rs)
    /\ Forall2 seeded_review bs rs.
Proof.
  intros R. revert i db.
  induction bs as [| b rest IH]; intros i db N F.
  - exists []. simpl. rewrite app_nil_r. destruct db. split; [reflexivity | constructor].
  - cbn [Seed.create_reviews_from]. cbv zeta.
    assert (Free : ReviewSerializer.booking_taken db (Seed.row b) = false)
      by (apply booking_free_spec; apply F; now left).
    unfold ReviewSerializer.objects_create.
    cbn [bind ReviewSerializer.column ReviewSerializer.listing
         ReviewSerializer.booking ReviewSerializer.reviewer
         ReviewSerializer.overall_rating ReviewSerializer.comment
         ReviewSerializer.is_verified ReviewSerializer.host_response].
    rewrite Free. cbn [bind fst snd].
    destruct (R i) as (Ri & Rs & _).
    pose proof (Ri 1 5 ltac:(lia)) as Hrating.
    set (rating := Seed.randint (rnd i) 1 5) in *.
    set (comment := if rating >=? 4 then _ else _).
    assert (Hc : In comment
                    (if rating >=? 4 then Seed.positive_comments
                     else if rating =? 3 then Seed.neutral_comments
                     else Seed.negative_comments)).
    { unfold comment. destruct (rating >=? 4); [apply Rs; discriminate |].
      destruct (rating =? 3); apply Rs; discriminate. }
    set (r0 := Review.mk _ _ _ _ _ _ _ None).
    assert (S : exists r1,
               (if Seed.random_lt_half (rnd i)
                then (Seed.save (Db.add_review db r0)
                        (Review.mk (Review.pk r0) (Review.listing_id r0)
                                   (Review.booking_id r0) (Review.reviewer_id r0)
                                   (Review.overall_rating r0) (Review.is_verified r0)
                                   (Review.comment r0)
                                   (Some (Seed.choice_string (rnd i)
                                                             Seed.host_responses))),
                      Review.mk (Review.pk r0) (Review.listing_id r0)
                                (Review.booking_id r0) (Review.reviewer_id r0)
                                (Review.overall_rating r0) (Review.is_verified r0)
                                (Review.comment r0)
                                (Some (Seed.choice_string (rnd i)
                                                          Seed.host_responses)))
                else (Db.add_review db r0, r0))
               = (Db.add_review db r1, r1)
               /\ seeded_review b r1).
    { destruct (Seed.random_lt_half (rnd i)).
      - eexists. split; [rewrite save_just_created; reflexivity |].
        unfold seeded_review, r0. simpl. repeat split; try lia; try exact Hc.
        intros text E. injection E as <-.
        exact (Rs Seed.host_responses ltac:(discriminate)).
      - exists r0. split; [reflexivity |].
        unfold seeded_review, r0. simpl. repeat split; try lia; try exact Hc.
        intros text E. discriminate. }
    destruct S as (r1 & -> & Sr). cbn [fst snd].
    destruct (IH (S i) (Db.add_review db r1)) as (rs & E & F2).
    + now inversion N.
    + intros b' Hb' x Hx. simpl in Hx. apply in_app_or in Hx.
      destruct Hx as [Hx | [<- | []]].
      * apply F; [now right | exact Hx].
      * destruct Sr as (-> & _). inversion N as [| ? ? Nin _]; subst.
        intros Eq. apply Nin. rewrite Eq.
        now apply (in_map (fun b => Booking.pk (Seed.row b))).
    + rewrite E. cbn [bind fst snd]. exists (r1 :: rs). split.
      * simpl. rewrite <- app_assoc. reflexivity.
      * now constructor.
Qed.

(** Filtering the Completed bookings keeps their keys distinct. *)
Lemma completed_keys_distinct (bookings : list Seed.booking_object) :
  NoDup (map (fun b => Booking.pk (Seed.row b)) bookings) ->
  NoDup (map (fun b => Booking.pk (Seed.row b))
             (filter (fun b => Booking.status_eqb (Booking.status (Seed.row b))
                                                  Booking.COMPLETED)
                     bookings)).
Proof.
  intros N. induction bookings as [| b bookings IH]; [constructor |].
  cbn [map] in N. apply NoDup_cons_iff in N. destruct N as [Fresh N].
  cbn [filter].
  destruct (Booking.status_eqb (Booking.status (Seed.row b)) Booking.COMPLETED);
    [| now apply IH].
  cbn [map]. constructor; [| now apply IH].
  intros Hin. apply Fresh. apply in_map_iff in Hin.
  destruct Hin as (b' & Eq & Hb'). apply filter_In in Hb'. destruct Hb' as [Hb' _].
  rewrite <- Eq. now apply (in_map (fun x => Booking.pk (Seed.row x))).
Qed.

Lemma seeded_reviews_bookings (bs : list Seed.booking_object) (rs : list Review.t) :
  Forall2 seeded_review bs rs ->
  map Review.booking_id rs = map (fun b => Booking.pk (Seed.row b)) bs
  /\ Forall (fun r => exists b, In b bs /\ seeded_review b r) rs.
Proof.
  induction 1 as [| b r bs rs S _ [IH1 IH2]]; simpl.
  - split; [reflexivity | constructor].
  - split; [f_equal; [apply S | exact IH1] |].
    constructor; [exists b; split; [now left | exact S] |].
    eapply Forall_impl; [| exact IH2].
    intros x (b' & Hb' & Sx). exists b'. split; [now right | exact Sx].
Qed.

Lemma identity_sample_ok : Seed.sample_ok (fun population => population).
Proof.
  intros population. split; [apply incl_refl | now intros].
Defined.

Lemma create_reviews_spec (rnd : nat -> Seed.random)
      (sample : list Seed.booking_object -> list Seed.booking_object)
      (bookings : list Seed.booking_object) (db : Db.t) :
  (forall j, Seed.random_ok (rnd j)) ->
  Seed.sample_ok sample ->
  NoDup (map (fun b => Booking.pk (Seed.row b)) bookings) ->
  Forall coherent bookings ->
  (forall b, In b bookings ->
             forall r, In r (Db.reviews db) ->
                       Review.booking_id r <> Booking.pk (Seed.row b)) ->
  exists rs,
    Seed.create_reviews rnd sample bookings db
    = Ok (Db.mk (Db.users db) (Db.listings db) (Db.bookings db)
                (Db.reviews db ++ rs),
          rs)
    /\ Forall (fun r =>
                 exists b,
                   In b bookings
                   /\ Booking.status (Seed.row b) = Booking.COMPLETED
                   /\ Review.booking_id r = Booking.pk (Seed.row b)
                   /\ Review.listing_id r = Booking.listing_id (Seed.row b)
                   /\ Review.reviewer_id r = Booking.guest_id (Seed.row b)
                   /\ 1 <= Review.overall_rating r <= 5
                   /\ Review.is_verified r = true) rs
    /\ NoDup (map Review.booking_id rs).
Proof.
  intros R Sok N C F. unfold Seed.create_reviews. cbv zeta.
  set (completed :=
         filter (fun b => Booking.status_eqb (Booking.status (Seed.row b))
                                             Booking.COMPLETED) bookings).
  destruct (Sok completed) as [Incl Nd].
  assert (In_completed : forall b, In b (sample completed) ->
                                   In b bookings
                                   /\ Booking.status (Seed.row b) = Booking.COMPLETED).
  { intros b Hb. apply Incl in Hb. apply filter_In in Hb.
    destruct Hb as [Hb St]. now apply status_eqb_eq in St. }
  destruct (create_reviews_from_spec rnd (sample completed) 0 db R) as (rs & E & F2).
  - apply Nd. now apply completed_keys_distinct.
  - intros b Hb. apply F. now apply In_completed.
  - exists rs. split; [exact E |].
    destruct (seeded_reviews_bookings _ _ F2) as [M Fa]. split.
    + eapply Forall_impl; [| exact Fa].
      intros r (b & Hb & Sb & Sl & Su & Sr & Sv & _).
      destruct (In_completed b Hb) as [Hin St].
      rewrite Forall_forall in C. destruct (C b Hin) as [Cl Cg].
      exists b. repeat split; try assumption; try lia; congruence.
    + rewrite M. apply Nd. now apply completed_keys_distinct.
Qed.

(** X26: [create_reviews], given bookings with distinct keys of which none
    has a review yet, does not fail on the one-review-per-booking
    constraint.  The reviews it adds are for Completed bookings among those
    given, one each at most, marked verified and rated 1 to 5, and each is
    filed under the listing and the guest of its own booking. *)
Theorem create_reviews_rows (rnd : nat -> Seed.random)
        (sample : list Seed.booking_object -> list Seed.booking_object)
        (bookings : list Seed.booking_object) (db : Db.t) :
  (forall j, Seed.random_ok (rnd j)) ->
  Seed.sample_ok sample ->
  NoDup (map (fun b => Booking.pk (Seed.row b)) bookings) ->
  Forall coherent bookings ->
  (forall b, In b bookings ->
             forall r, In r (Db.reviews db) ->
                       Review.booking_id r <> Booking.pk (Seed.row b)) ->
  exists rs,
    Seed.create_reviews rnd sample bookings db
    = Ok (Db.mk (Db.users db) (Db.listings db) (Db.bookings db)
                (Db.reviews db ++ rs),
          rs)
    /\ Forall (fun r =>
                 exists b,
                   In b bookings
                   /\ Booking.status (Seed.row b) = Booking.COMPLETED
                   /\ Review.booking_id r = Booking.pk (Seed.row b)
                   /\ Review.listing_id r = Booking.listing_id (Seed.row b)
                   /\ Review.reviewer_id r = Booking.guest_id (Seed.row b)
                   /\ 1 <= Review.overall_rating r <= 5
                   /\ Review.is_verified r = true) rs
    /\ NoDup (map Review.booking_id rs).
Proof. apply create_reviews_spec. Qed.

Lemma create_reviews_rows_witness :
  exists rs,
    Seed.create_reviews (fun _ => Seed.first_random) (fun population => population)
      [Seed.mk_booking_object (Sample.stay 10 13 Booking.COMPLETED)
                              Sample.loft Sample.guest]
      Sample.db
    = Ok (Db.mk (Db.users Sample.db) (Db.listings Sample.db) (Db.bookings Sample.db)
                (Db.reviews Sample.db ++ rs),
          rs)
    /\ NoDup (map Review.booking_id rs).
Proof.
  destruct (create_reviews_rows (fun _ => Seed.first_random)
              (fun population => population)
              [Seed.mk_booking_object (Sample.stay 10 13 Booking.COMPLETED)
                                      Sample.loft Sample.guest]
              Sample.db)
    as (rs & E & _ & N).
  - intros _. exact first_random_ok.
  - exact identity_sample_ok.
  - simpl. constructor; [intros [] | constructor].
  - constructor; [split; reflexivity | constructor].
  - intros b _ r [].
  - exists rs. split; [exact E | exact N].
Defined.

Lemma bookings_then_reviews_spec (rnd rnd' : nat -> Seed.random)
        (sample : list Seed.booking_object -> list Seed.booking_object)
        (today : date) (listings : list Listing.t) (guests : list User.t)
        (db : Db.t) :
  (forall j, Seed.random_ok (rnd j)) ->
  (forall j, Seed.random_ok (rnd' j)) ->
  Seed.sample_ok sample ->
  listings <> [] ->
  guests <> [] ->
  (forall r, In r (Db.reviews db) ->
             In (Review.booking_id r) (map Booking.pk (Db.bookings db))) ->
  exists db1 bs db2 rs,
    Seed.create_bookings rnd today listings guests db = Ok (db1, bs)
    /\ Seed.create_reviews rnd' sample bs db1 = Ok (db2, rs)
    /\ Db.reviews db2 = Db.reviews db ++ rs
    /\ Db.bookings db2 = Db.bookings db ++ map Seed.row bs
    /\ (NoDup (map Review.booking_id (Db.reviews db)) ->
        NoDup (map Review.booking_id (Db.reviews db2)))
    /\ (forall r, In r (Db.reviews db2) ->
                  In (Review.booking_id r) (map Booking.pk (Db.bookings db2)))
    /\ Db.listings db2 = Db.listings db
    /\ List.length bs = 50%nat.
Proof.
  intros R R' Sok Hl Hg Fk.
  destruct (create_bookings_spec rnd today listings guests db R Hl Hg)
    as (bs & E & L50 & Fs & P & N).
  rewrite Forall_forall in P.
  assert (Free : forall b, In b bs ->
                           forall r, In r (Db.reviews db) ->
                                     Review.booking_id r <> Booking.pk (Seed.row b)).
  { intros b Hb r Hr Eq. specialize (P b Hb _ (Fk r Hr)). lia. }
  destruct (create_reviews_spec rnd' sample bs
              (Db.mk (Db.users db) (Db.listings db)
                     (Db.bookings db ++ map Seed.row bs) (Db.reviews db))
              R' Sok N)
    as (rs & E2 & Fr & Nr).
  - eapply Forall_impl; [| exact Fs].
    intros b (_ & _ & C1 & C2 & _). now split.
  - exact Free.
  - rewrite Forall_forall in Fr.
    do 4 eexists. split; [exact E |]. split; [exact E2 |]. simpl.
    split; [reflexivity |]. split; [reflexivity |].
    split; [| split; [| split; [reflexivity | exact L50]]].
    + intros Nd. rewrite map_app. apply NoDup_app; [exact Nd | exact Nr |].
      intros k Hk Hk'. apply in_map_iff in Hk. apply in_map_iff in Hk'.
      destruct Hk as (r & <- & Hr). destruct Hk' as (r' & Eq & Hr').
      destruct (Fr r' Hr') as (b & Hb & _ & Eb & _).
      apply (Free b Hb r Hr). congruence.
    + intros r Hr. rewrite map_app. apply in_or_app.
      apply in_app_or in Hr. destruct Hr as [Hr | Hr]; [left; now apply Fk |].
      right. destruct (Fr r Hr) as (b & Hb & _ & Eb & _). rewrite Eb.
      rewrite map_map. now apply (in_map (fun x => Booking.pk (Seed.row x))).
Qed.

(** X27: seeding bookings and then reviews, as the command does, cannot
    fail on a table whose reviews all refer to bookings of the table: with
    non-empty lists of listings and guests both steps return, the new
    reviews follow the old ones, and the table keeps one review per booking
    if it had so before. *)
Theorem bookings_then_reviews (rnd rnd' : nat -> Seed.random)
        (sample : list Seed.booking_object -> list Seed.booking_object)
        (today : date) (listings : list Listing.t) (guests : list User.t)
        (db : Db.t) :
  (forall j, Seed.random_ok (rnd j)) ->
  (forall j, Seed.random_ok (rnd' j)) ->
  Seed.sample_ok sample ->
  listings <> [] ->
  guests <> [] ->
  (forall r, In r (Db.reviews db) ->
             In (Review.booking_id r) (map Booking.pk (Db.bookings db))) ->
  exists db1 bs db2 rs,
    Seed.create_bookings rnd today listings guests db = Ok (db1, bs)
    /\ Seed.create_reviews rnd' sample bs db1 = Ok (db2, rs)
    /\ Db.reviews db2 = Db.reviews db ++ rs
    /\ Db.bookings db2 = Db.bookings db ++ map Seed.row bs
    /\ (NoDup (map Review.booking_id (Db.reviews db)) ->
        NoDup (map Review.booking_id (Db.reviews db2)))
    /\ (forall r, In r (Db.reviews db2) ->
                  In (Review.booking_id r) (map Booking.pk (Db.bookings db2))).
Proof.
  intros R R' Sok Hl Hg Fk.
  destruct (bookings_then_reviews_spec rnd rnd' sample today listings guests db
              R R' Sok Hl Hg Fk)
    as (db1 & bs & db2 & rs & E1 & E2 & Er & Eb & Nd & Fk2 & _).
  exists db1, bs, db2, rs. repeat split; assumption.
Qed.

Lemma bookings_then_reviews_witness :
  exists db1 bs db2 rs,
    Seed.create_bookings (fun _ => Seed.first_random) 100
                         [Sample.loft] [Sample.guest] Sample.db
    = Ok (db1, bs)
    /\ Seed.create_reviews (fun _ => Seed.first_random)
                           (fun population => population) bs db1
       = Ok (db2, rs).
Proof.
  destruct (bookings_then_reviews (fun _ => Seed.first_random)
              (fun _ => Seed.first_random) (fun population => population)
              100 [Sample.loft] [Sample.guest] Sample.db)
    as (db1 & bs & db2 & rs & E1 & E2 & _).
  - intros _. exact first_random_ok.
  - intros _. exact first_random_ok.
  - exact identity_sample_ok.
  - discriminate.
  - discriminate.
  - intros r [].
  - exists db1, bs, db2, rs. split; [exact E1 | exact E2].
Defined.

Lemma create_bookings_on_the_day_witness :
  exists db' bs,
    Seed.create_bookings (fun _ => Seed.first_random) 100
                         [Sample.loft] [Sample.guest] Sample.db
    = Ok (db', bs)
    /\ Forall (fun b => Booking.is_active 100 (Seed.row b) = false) bs.
Proof.
  destruct (create_bookings_spec (fun _ => Seed.first_random) 100
              [Sample.loft] [Sample.guest] Sample.db)
    as (bs & E & _).
  - intros _. exact first_random_ok.
  - discriminate.
  - discriminate.
  - do 2 eexists. split; [exact E |].
    eapply Forall_impl;
      [| apply (create_bookings_on_the_day (fun _ => Seed.first_random) 100
                  [Sample.loft] [Sample.guest] Sample.db _ bs
                  (fun _ => first_random_ok)
                  ltac:(discriminate) ltac:(discriminate) E)].
    intros b H. exact (proj1 H).
Defined.

Lemma booking_of_validated_listing_witness :
  0 < Booking.price_per_night
        (Booking.mk 2 3 2 10 13 2 9900 29700 29700 Booking.PENDING)
    <= Booking.total_price
         (Booking.mk 2 3 2 10 13 2 9900 29700 29700 Booking.PENDING).
Proof.
  apply (booking_of_validated_listing 5 Sample.db
           (Db.mk (Db.users Sample.db)
                  (Db.listings Sample.db
                   ++ [Listing.mk 3 "Charming House in London" 2 1 9900 true 1])
                  (Db.bookings Sample.db) (Db.reviews Sample.db))
           Sample.db
           (Db.add_booking Sample.db
              (Booking.mk 2 3 2 10 13 2 9900 29700 29700 Booking.PENDING))
           (ListingSerializer.mk_submission "Charming House in London" 2 1 9900 None
                                            Sample.host)
           (Listing.mk 3 "Charming House in London" 2 1 9900 true 1)
           (BookingSerializer.mk_submission
              (Listing.mk 3 "Charming House in London" 2 1 9900 true 1)
              Sample.guest 10 13 2 None None None None));
    reflexivity.
Defined.

Lemma listing_submit_accepted_iff_witness :
  exists db' l,
    ListingSerializer.submit Sample.db
      (ListingSerializer.mk_submission "Charming House in London" 2 1 9900 None
                                       Sample.host)
    = (db', Ok l)
    /\ Listing.is_active l = true.
Proof.
  destruct (proj2 (proj1 (listing_submit_accepted_iff Sample.db
                            (ListingSerializer.mk_submission
                               "Charming House in London" 2 1 9900 None
                               Sample.host))))
    as (db' & l & E).
  - simpl; lia.
  - exists db', l. split; [exact E |].
    apply (proj2 (listing_submit_accepted_iff Sample.db _) db' l E). reflexivity.
Defined.

Lemma find_app {A : Type} (p : A -> bool) (l l' : list A) :
  find p (l ++ l') = match find p l with
                     | Some x => Some x
                     | None => find p l'
                     end.
Proof.
  induction l as [| x l IH]; simpl; [reflexivity |].
  destruct (p x); [reflexivity | exact IH].
Qed.

(** What the loop of [create_users] returns: rows are only added to the
    user table, and each user returned is the first row of its name. *)
Lemma create_users_from_spec (prefix : string) (n i : nat) (db : Db.t) :
  exists added,
    fst (Seed.create_users_from prefix i n db)
    = Db.mk (Db.users db ++ added) (Db.listings db) (Db.bookings db) (Db.reviews db)
    /\ List.length (snd (Seed.create_users_from prefix i n db)) = n
    /\ Forall2 (fun k u =>
                  find (fun x => String.eqb (User.username x)
                                            (String.append prefix (Seed.str k)))
                       (Db.users db ++ added) = Some u
                  /\ User.username u = String.append prefix (Seed.str k))
               (seq i n) (snd (Seed.create_users_from prefix i n db))
    /\ Forall (fun u => User.is_active u = true) added.
Proof.
  revert i db. induction n as [| n IH]; intros i db.
  - exists []. simpl. rewrite app_nil_r. destruct db.
    repeat split; constructor.
  - cbn [Seed.create_users_from seq]. cbv zeta. unfold Seed.get_or_create.
    destruct (find _ (Db.users db)) as [u |] eqn:Fd; cbn [fst snd].
    + destruct (IH (S i) db) as (added & E & L & F2 & A).
      exists added. split; [exact E |]. split; [simpl; now rewrite L |].
      split; [| exact A].
      constructor; [| exact F2]. split.
      * rewrite find_app, Fd. reflexivity.
      * apply find_some in Fd. now apply String.eqb_eq.
    + match goal with
      | |- context [Seed.create_users_from prefix (S i) n ?d] =>
          destruct (IH (S i) d) as (added & E & L & F2 & A)
      end.
      cbn [Db.users Db.listings Db.bookings Db.reviews] in E, F2.
      match type of E with
      | context [(_ ++ [?x]) ++ added] => set (user := x) in *
      end.
      exists (user :: added). rewrite <- app_assoc in E, F2.
      split; [exact E |]. split; [simpl; now rewrite L |].
      split; [| constructor; [reflexivity | exact A]].
      constructor; [| exact F2]. split; [| reflexivity].
      rewrite find_app, Fd. simpl. now rewrite String.eqb_refl.
Qed.



(** X29: the seed command does not fail, with [--clear] always and without
    it on a table whose reviews all refer to bookings of the table.  It
    leaves 30 listings and 50 bookings more than it started from (after
    clearing, 30 and 50), and again a table whose reviews all refer to
    bookings of the table, so that it can be run once more. *)
Theorem handle_succeeds (clear : bool)
        (rnd_listings rnd_bookings rnd_reviews : nat -> Seed.random)
        (sample : list Seed.booking_object -> list Seed.booking_object)
        (today : date) (db : Db.t) :
  (forall j, Seed.random_ok (rnd_listings j)) ->
  (forall j, Seed.random_ok (rnd_bookings j)) ->
  (forall j, Seed.random_ok (rnd_reviews j)) ->
  Seed.sample_ok sample ->
  (clear = false ->
   forall r, In r (Db.reviews db) ->
             In (Review.booking_id r) (map Booking.pk (Db.bookings db))) ->
  exists db',
    Seed.handle clear rnd_listings rnd_bookings rnd_reviews sample today db = Ok db'
    /\ List.length (Db.listings db')
       = ((if clear then 0 else List.length (Db.listings db)) + 30)%nat
    /\ List.length (Db.bookings db')
       = ((if clear then 0 else List.length (Db.bookings db)) + 50)%nat
    /\ (forall r, In r (Db.reviews db') ->
                  In (Review.booking_id r) (map Booking.pk (Db.bookings db'))).
Proof.
  intros Rl Rb Rr Sok Fk. unfold Seed.handle. cbv zeta.
  set (start := if clear then Db.mk (Db.users db) [] [] [] else db).
  assert (Fk' : forall r, In r (Db.reviews start) ->
                          In (Review.booking_id r) (map Booking.pk (Db.bookings start))).
  { unfold start. destruct clear; [intros r [] | now apply Fk]. }
  assert (Ll : List.length (Db.listings start)
               = if clear then 0%nat else List.length (Db.listings db))
    by (unfold start; now destruct clear).
  assert (Lb : List.length (Db.bookings start)
               = if clear then 0%nat else List.length (Db.bookings db))
    by (unfold start; now destruct clear).
  clearbody start. unfold Seed.create_users.
  destruct (create_users_from_spec "host" 5 1 start) as (a1 & E1 & L1 & _).
  rewrite E1.
  set (hosts := snd (Seed.create_users_from "host" 1 5 start)) in *.
  match goal with
  | |- context [Seed.create_users_from "guest" 1 10 ?d] =>
      destruct (create_users_from_spec "guest" 10 1 d) as (a2 & E2 & L2 & _)
  end.
  rewrite E2. cbn [Db.users Db.listings Db.bookings Db.reviews].
  match goal with
  | |- context [snd (Seed.create_users_from "guest" 1 10 ?d)] =>
      set (guests := snd (Seed.create_users_from "guest" 1 10 d)) in *
  end.
  assert (Hh : hosts <> []) by (intros Z; rewrite Z in L1; discriminate).
  assert (Hg : guests <> []) by (intros Z; rewrite Z in L2; discriminate).
  match goal with
  | |- context [Seed.create_listings rnd_listings hosts ?d] =>
      destruct (create_listings_spec rnd_listings hosts d Rl Hh)
        as (ls & E3 & L3 & _)
  end.
  rewrite E3. cbn [bind fst snd Db.users Db.listings Db.bookings Db.reviews].
  assert (Hls : ls <> []) by (intros Z; rewrite Z in L3; discriminate).
  match goal with
  | |- context [Seed.create_bookings rnd_bookings today ls guests ?d] =>
      destruct (bookings_then_reviews_spec rnd_bookings rnd_reviews sample today
                  ls guests d Rb Rr Sok Hls Hg Fk')
        as (db1 & bs & db2 & rs & E4 & E5 & Er & Eb & _ & Fk2 & El & L4)
  end.
  rewrite E4. cbn [bind fst snd]. rewrite E5. cbn [bind fst snd].
  exists db2. split; [reflexivity |]. split; [| split].
  - rewrite El. simpl. rewrite length_app, L3, Ll. reflexivity.
  - rewrite Eb. simpl. rewrite length_app, length_map, L4, Lb. reflexivity.
  - exact Fk2.
Qed.

Lemma handle_succeeds_witness :
  exists db',
    Seed.handle true (fun _ => Seed.first_random) (fun _ => Seed.first_random)
                (fun _ => Seed.first_random) (fun population => population)
                100 Sample.db
    = Ok db'
    /\ List.length (Db.listings db') = 30%nat
    /\ List.length (Db.bookings db') = 50%nat.
Proof.
  destruct (handle_succeeds true (fun _ => Seed.first_random)
              (fun _ => Seed.first_random) (fun _ => Seed.first_random)
              (fun population => population) 100 Sample.db)
    as (db' & E & Ll & Lb & _).
  - intros _. exact first_random_ok.
  - intros _. exact first_random_ok.
  - intros _. exact first_random_ok.
  - exact identity_sample_ok.
  - discriminate.
  - exists db'. split; [exact E | split; [exact Ll | exact Lb]].
Defined.
